(** * squarespace-python: the [Squarespace] order client

    A shallow embedding of [squarespace.py].  The client object becomes a
    record, every method a computation that threads the client and the
    outside world (the HTTP requests issued so far, the [logging] output,
    the clock) and ends with a value or a raised exception. *)

From Stdlib Require Import ZArith String Ascii List Bool Lia DecimalString.
From stdpp Require Import base gmap strings list.

Local Open Scope string_scope.
Local Open Scope list_scope.
Local Open Scope Z_scope.

Set Warnings "-register-all".

(** ** Python values

    What [requests]' JSON decoder hands to the client, and what callers
    pass as selectors: [None], booleans, integers, strings, lists and
    dictionaries.  A dictionary keeps its insertion order, so it is an
    association list. *)

Inductive value : Type :=
  | VNone
  | VBool (b : bool)
  | VInt (z : Z)
  | VStr (s : string)
  | VList (l : list value)
  | VDict (d : list (string * value)).

(** [bool(v)]: the test behind [if v], [if not v] and [while v]. *)
Definition truthy (v : value) : bool :=
  match v with
  | VNone => false
  | VBool b => b
  | VInt z => negb (z =? 0)
  | VStr s => negb (String.eqb s "")
  | VList l => match l with [] => false | _ => true end
  | VDict d => match d with [] => false | _ => true end
  end.

Fixpoint dict_get {A : Type} (k : string) (d : list (string * A)) : option A :=
  match d with
  | [] => None
  | (k', v) :: d' => if String.eqb k' k then Some v else dict_get k d'
  end.

(** [a == b] on decoded values; [True == 1] and [False == 0] as in Python,
    dictionaries compared as maps. *)
Fixpoint py_eq (a b : value) : bool :=
  match a, b with
  | VNone, VNone => true
  | VBool x, VBool y => Bool.eqb x y
  | VBool x, VInt y => (if x then 1 else 0) =? y
  | VInt x, VBool y => x =? (if y then 1 else 0)
  | VInt x, VInt y => x =? y
  | VStr x, VStr y => String.eqb x y
  | VList l1, VList l2 =>
      (fix go (l1 l2 : list value) : bool :=
         match l1, l2 with
         | [], [] => true
         | x :: l1', y :: l2' => py_eq x y && go l1' l2'
         | _, _ => false
         end) l1 l2
  | VDict d1, VDict d2 =>
      (length d1 =? length d2)%nat &&
      (fix go (d : list (string * value)) : bool :=
         match d with
         | [] => true
         | (k, v) :: d' =>
             match dict_get k d2 with
             | Some v' => py_eq v v'
             | None => false
             end && go d'
         end) d1
  | _, _ => false
  end.

(** ** Exceptions, log records, HTTP messages *)

Inductive exn_class : Type :=
  | ValueError | NotImplementedError | RuntimeError | SquarespaceError
  | KeyError | TypeError | AttributeError
  | JSONDecodeError | RequestException.

(** A positional argument of an exception or of a [logging] call. *)
Inductive pyarg : Type :=
  | AStr (s : string)
  | AInt (z : Z)
  | AVal (v : value).

Record exn : Type := Exn { exn_cls : exn_class; exn_args : list pyarg }.

Inductive level : Type := DEBUG | WARNING | ERROR.

Record LogRecord : Type :=
  Log { log_level : level; log_msg : string; log_args : list pyarg }.

Inductive http_method : Type := GET | POST.

(** One call of [self.http.get] or [self.http.post]. *)
Record Request : Type := {
  req_method : http_method;
  req_url : string;
  req_params : list (string * value);
  req_json : option value;
  req_headers : gmap string string
}.

(** A [requests.Response]; [json] is [None] when [.json()] cannot decode
    the body. *)
Record Response : Type := {
  status_code : Z;
  url : string;
  text : string;
  json : option value
}.

(** [time.struct_time], as [gmtime()] returns it. *)
Record struct_time : Type := {
  tm_year : Z; tm_mon : Z; tm_mday : Z;
  tm_hour : Z; tm_min : Z; tm_sec : Z
}.

(** The world outside the client: the requests sent so far (oldest first),
    the records handed to [logging], and the clock. *)
Record World : Type := {
  trace : list Request;
  log : list LogRecord;
  clock : struct_time
}.

(** The client object: the attributes [__init__] sets. *)
Record Squarespace : Type := {
  api_key : string;
  api_baseurl : string;
  api_version : string;
  tracking_baseurl : string;
  http_headers : gmap string string;
  _useragent : string;
  _next_page : value;
  max_pages : Z
}.

(** ** Computations *)

Inductive outcome (A : Type) : Type :=
  | Ok (a : A)
  | Raise (e : exn)
  | OutOfFuel.
Arguments Ok {A} a.
Arguments Raise {A} e.
Arguments OutOfFuel {A}.

Definition M (A : Type) : Type :=
  Squarespace → World → outcome A * Squarespace * World.

Definition ret {A} (a : A) : M A := λ c w, (Ok a, c, w).

Definition raise {A} (cls : exn_class) (args : list pyarg) : M A :=
  λ c w, (Raise (Exn cls args), c, w).

Definition bind {A B} (m : M A) (k : A → M B) : M B :=
  λ c w,
    match m c w with
    | (Ok a, c', w') => k a c' w'
    | (Raise e, c', w') => (Raise e, c', w')
    | (OutOfFuel, c', w') => (OutOfFuel, c', w')
    end.

Notation "x <- m ;; k" := (bind m (λ x, k))
  (at level 100, m at next level, right associativity).
Notation "m ;;; k" := (bind m (λ _, k))
  (at level 100, right associativity).

(** Lift a state-free step that may raise. *)
Definition lift {A} (o : outcome A) : M A := λ c w, (o, c, w).

Definition self : M Squarespace := λ c w, (Ok c, c, w).

(** The world once request [r] has gone out. *)
Definition sent (r : Request) (w : World) : World :=
  {| trace := trace w ++ [r]; log := log w; clock := clock w |}.

(** The world once a record has been logged. *)
Definition logged (rec : LogRecord) (w : World) : World :=
  {| trace := trace w; log := log w ++ [rec]; clock := clock w |}.

Definition logging (lv : level) (msg : string) (args : list pyarg) : M unit :=
  λ c w, (Ok tt, c, logged (Log lv msg args) w).

Definition gmtime : M struct_time := λ c w, (Ok (clock w), c, w).

(** [self._next_page = v]. *)
Definition with_next_page (v : value) (c : Squarespace) : Squarespace :=
  {| api_key := api_key c; api_baseurl := api_baseurl c;
     api_version := api_version c;
     tracking_baseurl := tracking_baseurl c;
     http_headers := http_headers c; _useragent := _useragent c;
     _next_page := v; max_pages := max_pages c |}.

Definition set_next_page (v : value) : M unit :=
  λ c w, (Ok tt, with_next_page v c, w).

(** Results projected out of a run. *)
Definition result_of {A} (r : outcome A * Squarespace * World) : outcome A :=
  r.1.1.
Definition client_of {A} (r : outcome A * Squarespace * World) : Squarespace :=
  r.1.2.
Definition world_of {A} (r : outcome A * Squarespace * World) : World :=
  r.2.

(** ** Python operations the client uses on decoded values *)

(** [v[key]] with a string key. *)
Definition subscript (v : value) (key : string) : outcome value :=
  match v with
  | VDict d =>
      match dict_get key d with
      | Some x => Ok x
      | None => Raise (Exn KeyError [AStr key])
      end
  | _ => Raise (Exn TypeError [])
  end.

Fixpoint is_substring (p s : string) : bool :=
  String.prefix p s ||
  match s with
  | EmptyString => false
  | String _ s' => is_substring p s'
  end.

(** [key in v]: key membership for a dictionary, element membership for a
    list, substring test for a string. *)
Definition contains (key : string) (v : value) : outcome bool :=
  match v with
  | VDict d => Ok (match dict_get key d with Some _ => true | None => false end)
  | VList l => Ok (existsb (py_eq (VStr key)) l)
  | VStr s => Ok (is_substring key s)
  | _ => Raise (Exn TypeError [])
  end.

Fixpoint chars (s : string) : list value :=
  match s with
  | EmptyString => []
  | String a s' => VStr (String a EmptyString) :: chars s'
  end.

(** What iterating over [v] yields. *)
Definition iterate (v : value) : outcome (list value) :=
  match v with
  | VList l => Ok l
  | VStr s => Ok (chars s)
  | VDict d => Ok (map (λ kv, VStr kv.1) d)
  | _ => Raise (Exn TypeError [])
  end.

(** [orders.extend]: looking the method up succeeds on a list only. *)
Definition getattr_extend (orders : value) : outcome (list value) :=
  match orders with
  | VList l => Ok l
  | _ => Raise (Exn AttributeError [AStr "extend"])
  end.

(** [l.extend(page)]: the argument may be any iterable. *)
Definition extend (l : list value) (page : value) : outcome value :=
  match iterate page with
  | Ok l' => Ok (VList (l ++ l'))
  | Raise e => Raise e
  | OutOfFuel => OutOfFuel
  end.

(** ** [strftime] for the directives the client uses *)

Definition dec (z : Z) : string := NilZero.string_of_int (Z.to_int z).

(** A [%02d] field. *)
Definition pad2 (z : Z) : string :=
  if (0 <=? z) && (z <? 10) then "0" +:+ dec z else dec z.

Definition directive (d : ascii) (t : struct_time) : string :=
  if Ascii.eqb d "Y" then dec (tm_year t)
  else if Ascii.eqb d "m" then pad2 (tm_mon t)
  else if Ascii.eqb d "d" then pad2 (tm_mday t)
  else if Ascii.eqb d "H" then pad2 (tm_hour t)
  else if Ascii.eqb d "M" then pad2 (tm_min t)
  else if Ascii.eqb d "S" then pad2 (tm_sec t)
  else String "%" (String d EmptyString).

Fixpoint strftime (fmt : string) (t : struct_time) : string :=
  match fmt with
  | EmptyString => EmptyString
  | String a rest =>
      if Ascii.eqb a "%" then
        match rest with
        | String d rest' => directive d t +:+ strftime rest' t
        | EmptyString => String a EmptyString
        end
      else String a (strftime rest t)
  end.

Definition is_digit (a : ascii) : bool :=
  (48 <=? nat_of_ascii a)%nat && (nat_of_ascii a <=? 57)%nat.

Fixpoint all_digits (n : nat) (s : string) : option string :=
  match n, s with
  | O, _ => Some s
  | S n', String a s' => if is_digit a then all_digits n' s' else None
  | S _, EmptyString => None
  end.

Definition expect (a : ascii) (s : string) : option string :=
  match s with
  | String b s' => if Ascii.eqb a b then Some s' else None
  | EmptyString => None
  end.

(** The pattern [YYYY-MM-DDTHH:MM:SSZ]: digits at the letters, the
    punctuation as written, nothing after the [Z]. *)
Definition matches_ship_date (s : string) : bool :=
  match
    s ← all_digits 4 s; s ← expect "-" s;
    s ← all_digits 2 s; s ← expect "-" s;
    s ← all_digits 2 s; s ← expect "T" s;
    s ← all_digits 2 s; s ← expect ":" s;
    s ← all_digits 2 s; s ← expect ":" s;
    s ← all_digits 2 s; expect "Z" s
  with
  | Some EmptyString => true
  | _ => false
  end.

(** ** The client, parameterised by the network *)

Section Client.

(** The remote end: given the requests seen so far and the current one,
    the exception [requests] raises when transport fails, or a response. *)
Variable server : list Request → Request → exn + Response.

(** The headers a fresh [requests.Session()] carries. *)
Variable session_headers : gmap string string.

Definition __VERSION__ : string := "0.0.3".
Definition default_api_baseurl : string := "https://api.squarespace.com".
Definition default_api_version : string := "0.1".
Definition default_tracking_baseurl : string :=
  "https://tools.usps.com/go/TrackConfirmAction?tLabels=".

(** The [useragent] setter: keep the string, update the session header. *)
Definition with_useragent (agent_string : string) (c : Squarespace) : Squarespace :=
  {| api_key := api_key c; api_baseurl := api_baseurl c;
     api_version := api_version c;
     tracking_baseurl := tracking_baseurl c;
     http_headers := <["User-Agent" := agent_string]> (http_headers c);
     _useragent := agent_string;
     _next_page := _next_page c; max_pages := max_pages c |}.

Definition set_useragent (agent_string : string) : M unit :=
  λ c w, (Ok tt, with_useragent agent_string c, w).

Definition useragent : M string := λ c w, (Ok (_useragent c), c, w).

(** [Squarespace(api_key, api_baseurl, api_version, tracking_baseurl)]:
    the object [__init__] leaves behind, or the exception it raises. *)
Definition __init__ (key baseurl version tracking : string) : outcome Squarespace :=
  Ok (with_useragent
        ("Squarespace python API v" +:+ __VERSION__ +:+ " by Zach White.")
        {| api_key := key; api_baseurl := baseurl; api_version := version;
           tracking_baseurl := tracking;
           http_headers :=
             <["Authorization" := "Bearer " +:+ key]> session_headers;
           _useragent := "";
           _next_page := VNone;
           max_pages := 20 |}).

(** ['%s/%s/%s' % (self.api_baseurl, self.api_version, path)]. *)
Definition endpoint (c : Squarespace) (path : string) : string :=
  api_baseurl c +:+ "/" +:+ api_version c +:+ "/" +:+ path.

(** [self.http.get] / [self.http.post]: record the request, ask the server. *)
Definition http_send (r : Request) : M Response :=
  λ c w, (match server (trace w) r with inl e => Raise e | inr resp => Ok resp end,
          c, sent r w).

Definition http_get (u : string) (params : list (string * value)) : M Response :=
  c <- self ;;
  http_send {| req_method := GET; req_url := u; req_params := params;
               req_json := None; req_headers := http_headers c |}.

Definition http_post (u : string) (body : value) : M Response :=
  c <- self ;;
  http_send {| req_method := POST; req_url := u; req_params := [];
               req_json := Some body; req_headers := http_headers c |}.

Definition process_request (request : Response) : M value :=
  let s := status_code request in
  if (s =? 200) || (s =? 201) then
    match json request with
    | Some body => ret body
    | None => raise JSONDecodeError []
    end
  else if s =? 204 then ret (VBool true)
  else if s =? 401 then
    c <- self ;;
    raise ValueError [AStr "The API key %s is not valid."; AStr (api_key c)]
  else if (200 <? s) && (s <? 299) then
    logging WARNING "Squarespace success response %s:" [AInt s] ;;;
    logging WARNING (text request) [] ;;;
    raise NotImplementedError
      [AStr "Squarespace sent us a success response we're not prepared for!"]
  else
    logging ERROR "Squarespace error response %s:" [AInt s] ;;;
    logging ERROR "URL: %s" [AStr (url request)] ;;;
    logging ERROR (text request) [] ;;;
    if (400 <=? s) && (s <? 499) then
      raise RuntimeError [AStr "Squarespace thinks this request is bogus"]
    else if (500 <=? s) && (s <? 599) then
      raise RuntimeError [AStr "Squarespace is having problems, try later."]
    else
      raise RuntimeError [AStr "An unknown error occurred fetching your request."].

Definition post (path : string) (object : value) : M value :=
  c <- self ;;
  let u := endpoint c path in
  logging DEBUG "url:%s object:%s" [AStr u; AVal object] ;;;
  request <- http_post u object ;;
  process_request request.

Definition get (path : string) (args : option (list (string * value)))
  : M value :=
  let args :=
    match args with
    | Some d => if truthy (VDict d) then d else []
    | None => []
    end in
  c <- self ;;
  let u := endpoint c path in
  logging DEBUG "url:%s args:%s" [AStr u; AVal (VDict args)] ;;;
  request <- http_get u args ;;
  process_request request.

Definition orders (args : list (string * value)) : M value :=
  let uri := "commerce/orders" in
  result <- get uri (Some args) ;;
  pagination <- lift (subscript result "pagination") ;;
  has_cursor <- lift (contains "nextPageCursor" pagination) ;;
  cursor <- (if has_cursor : bool then
               pagination <- lift (subscript result "pagination") ;;
               lift (subscript pagination "nextPageCursor")
             else ret VNone) ;;
  set_next_page cursor ;;;
  lift (subscript result "result").

Definition next_page : M value :=
  c <- self ;;
  if truthy (_next_page c) then orders [("cursor", _next_page c)]
  else ret VNone.

(** The [while] loop of [all_orders]; [fuel] bounds the iterations. *)
Fixpoint all_orders_loop (fuel : nat) (count : Z) (orders : value) : M value :=
  c <- self ;;
  if truthy (_next_page c) then
    match fuel with
    | O => lift OutOfFuel
    | S fuel' =>
        let count := count + 1 in
        l <- lift (getattr_extend orders) ;;
        page <- next_page ;;
        orders <- lift (extend l page) ;;
        c <- self ;;
        if count >=? max_pages c then
          logging WARNING "%s.all_orders: max_pages (%s) hit."
            [AStr "Squarespace"; AInt (max_pages c)] ;;;
          ret orders
        else all_orders_loop fuel' count orders
    end
  else ret orders.

Definition all_orders : M value :=
  orders <- orders [] ;;
  c <- self ;;
  all_orders_loop (S (Z.to_nat (max_pages c))) 0 orders.

(** The [for] loop of [order] over the orders already fetched. *)
Fixpoint scan (order_number : value) (l : list value) : outcome value :=
  match l with
  | [] => Ok VNone
  | order :: l' =>
      match subscript order "orderNumber" with
      | Ok n => if py_eq n order_number then Ok order else scan order_number l'
      | Raise e => Raise e
      | OutOfFuel => OutOfFuel
      end
  end.

Definition order (order_id order_number : value) : M value :=
  if truthy order_id then
    match order_id with
    | VStr s => get ("commerce/orders/" +:+ s) None
    | _ => raise TypeError []
    end
  else if truthy order_number then
    all <- all_orders ;;
    l <- lift (iterate all) ;;
    lift (scan order_number l)
  else
    raise SquarespaceError
      [AStr "You must specify one of `order_id` or `order_number`"].

Definition fulfill (order_id tracking_number : string)
    (carrier_name service_name : value) (tracking_baseurl_arg : option string)
  : M value :=
  c <- self ;;
  let tracking_baseurl :=
    match tracking_baseurl_arg with
    | Some t => if truthy (VStr t) then t else tracking_baseurl c
    | None => tracking_baseurl c
    end in
  let uri := "commerce/orders/" +:+ order_id +:+ "/fulfillments" in
  now <- gmtime ;;
  let fulfillment :=
    VDict [("shouldSendNotification", VBool true);
           ("shipments",
            VList [VDict [("shipDate", VStr (strftime "%Y-%m-%dT%H:%M:%SZ" now));
                          ("carrierName", carrier_name);
                          ("service", service_name);
                          ("trackingNumber", VStr tracking_number);
                          ("trackingUrl",
                           VStr (tracking_baseurl +:+ tracking_number))]])] in
  post uri fulfillment.

(** ** Vocabulary of the properties *)

(** What [get] makes of its [args] parameter. *)
Definition query (args : option (list (string * value)))
  : list (string * value) :=
  match args with
  | Some d => if truthy (VDict d) then d else []
  | None => []
  end.

(** The request [get] sends and the record it logs first. *)
Definition get_request (c : Squarespace) (path : string)
    (args : option (list (string * value))) : Request :=
  {| req_method := GET; req_url := endpoint c path;
     req_params := query args; req_json := None;
     req_headers := http_headers c |}.

Definition get_debug (c : Squarespace) (path : string)
    (args : option (list (string * value))) : LogRecord :=
  Log DEBUG "url:%s args:%s" [AStr (endpoint c path); AVal (VDict (query args))].

(** The request [post] sends and the record it logs first. *)
Definition post_request (c : Squarespace) (path : string) (object : value)
  : Request :=
  {| req_method := POST; req_url := endpoint c path;
     req_params := []; req_json := Some object;
     req_headers := http_headers c |}.

Definition post_debug (c : Squarespace) (path : string) (object : value)
  : LogRecord :=
  Log DEBUG "url:%s object:%s" [AStr (endpoint c path); AVal object].

(** The request a call of [orders] with keyword arguments [args] sends. *)
Definition orders_request (c : Squarespace) (args : list (string * value))
  : Request :=
  get_request c "commerce/orders" (Some args).

(** A successful response whose envelope holds [page] under [result] and
    the truthy cursor [cur] under [pagination.nextPageCursor]. *)
Definition page_response (resp : Response) (page : list value) (cur : value)
  : Prop :=
  (status_code resp = 200 ∨ status_code resp = 201) ∧
  ∃ env pagination,
    json resp = Some env ∧
    subscript env "pagination" = Ok pagination ∧
    contains "nextPageCursor" pagination = Ok true ∧
    subscript pagination "nextPageCursor" = Ok cur ∧
    truthy cur = true ∧
    subscript env "result" = Ok (VList page).

(** A server that answers every request with a page and a next cursor. *)
Definition always_reports_cursor
    (page : list Request → Request → list value) : Prop :=
  ∀ h r, ∃ resp cur, server h r = inr resp ∧ page_response resp (page h r) cur.

End Client.

(** The pages a run of requests [new] collects after history [h]. *)
Fixpoint served (page : list Request → Request → list value)
    (h new : list Request) : list value :=
  match new with
  | [] => []
  | r :: rest => page h r ++ served page (h ++ [r]) rest
  end.

(** A run that started from client [c] and world [w] sent nothing but
    [GET]s of the order list and wrote nothing but the cursor. *)
Definition only_pages {A} (c : Squarespace) (w : World)
    (r : outcome A * Squarespace * World) : Prop :=
  (∃ new, trace (world_of r) = trace w ++ new ∧
          Forall (λ q, req_method q = GET ∧
                       req_url q = endpoint c "commerce/orders") new) ∧
  client_of r = with_next_page (_next_page (client_of r)) c.

(** The warning [all_orders] logs when it hits the cap. *)
Definition max_pages_warning (c : Squarespace) : LogRecord :=
  Log WARNING "%s.all_orders: max_pages (%s) hit."
    [AStr "Squarespace"; AInt (max_pages c)].

(** The first order of [l] whose [orderNumber] equals [n], else [None]. *)
Definition number_is (n : value) (o : value) : bool :=
  match subscript o "orderNumber" with
  | Ok x => py_eq x n
  | _ => false
  end.

Definition first_match (n : value) (l : list value) : value :=
  match List.find (number_is n) l with
  | Some o => o
  | None => VNone
  end.

Definition has_order_number (o : value) : Prop :=
  ∃ x, subscript o "orderNumber" = Ok x.

(** A clock reading whose year has four digits and whose other fields are
    in the ranges of [struct_time]. *)
Definition valid_time (t : struct_time) : Prop :=
  1000 ≤ tm_year t ≤ 9999 ∧ 1 ≤ tm_mon t ≤ 12 ∧ 1 ≤ tm_mday t ≤ 31 ∧
  0 ≤ tm_hour t ≤ 23 ∧ 0 ≤ tm_min t ≤ 59 ∧ 0 ≤ tm_sec t ≤ 61.

(** All characters of [s] are decimal digits. *)
Fixpoint digits (s : string) : bool :=
  match s with
  | EmptyString => true
  | String a s' => is_digit a && digits s'
  end.

(** A field of [n] digits, as [strftime] prints it. *)
Definition field (n : nat) (s : string) : bool :=
  (String.length s =? n)%nat && digits s.

(** The format string of [fulfill]. *)
Definition ship_date_format : string := "%Y-%m-%dT%H:%M:%SZ".

(** The template [fulfill] uses: its argument unless that is [None] or
    empty, else the client's. *)
Definition tracking_template (c : Squarespace) (arg : option string) : string :=
  match arg with
  | Some t => if String.eqb t "" then tracking_baseurl c else t
  | None => tracking_baseurl c
  end.

(** The error kinds of [process_request], told apart by their message. *)
Definition client_request_error : exn :=
  Exn RuntimeError [AStr "Squarespace thinks this request is bogus"].
Definition server_error : exn :=
  Exn RuntimeError [AStr "Squarespace is having problems, try later."].
Definition unknown_response_error : exn :=
  Exn RuntimeError [AStr "An unknown error occurred fetching your request."].
Definition missing_selector_error : exn :=
  Exn SquarespaceError
    [AStr "You must specify one of `order_id` or `order_number`"].

(** The three records every error path logs: status, URL, body. *)
Definition error_log (resp : Response) : list LogRecord :=
  [Log ERROR "Squarespace error response %s:" [AInt (status_code resp)];
   Log ERROR "URL: %s" [AStr (url resp)];
   Log ERROR (text resp) []].

Definition with_log (recs : list LogRecord) (w : World) : World :=
  {| trace := trace w; log := log w ++ recs; clock := clock w |}.

(** ** A concrete shop

    A client as [__init__] builds it for the key ["secret"], with
    [max_pages] lowered to 3, an idle world, and two servers: one whose
    order list never ends and one that holds two orders on a single page. *)

Definition demo_time : struct_time :=
  {| tm_year := 2026; tm_mon := 11; tm_mday := 4;
     tm_hour := 9; tm_min := 30; tm_sec := 5 |}.

Definition demo_world : World :=
  {| trace := []; log := []; clock := demo_time |}.

Definition demo_client : Squarespace :=
  {| api_key := "secret";
     api_baseurl := default_api_baseurl;
     api_version := default_api_version;
     tracking_baseurl := default_tracking_baseurl;
     http_headers :=
       <["User-Agent" := "Squarespace python API v0.0.3 by Zach White."]>
         (<["Authorization" := "Bearer secret"]> ∅);
     _useragent := "Squarespace python API v0.0.3 by Zach White.";
     _next_page := VNone;
     max_pages := 3 |}.

Definition demo_order (number : string) : value :=
  VDict [("id", VStr ("id-" +:+ number)); ("orderNumber", VStr number)].

Definition endless_page (h : list Request) (r : Request) : list value :=
  [demo_order (dec (1001 + Z.of_nat (length h)))].

Definition endless_server (h : list Request) (r : Request) : exn + Response :=
  inr {| status_code := 200; url := req_url r; text := "";
         json :=
           Some (VDict [("result", VList (endless_page h r));
                        ("pagination",
                         VDict [("hasNextPage", VBool true);
                                ("nextPageCursor", VStr "next")])]) |}.

Definition small_shop (h : list Request) (r : Request) : exn + Response :=
  inr {| status_code := 200; url := req_url r; text := "";
         json :=
           Some (VDict [("result",
                         VList [demo_order "1001"; demo_order "1002"]);
                        ("pagination",
                         VDict [("hasNextPage", VBool false)])]) |}.

Definition ok_response : Response :=
  {| status_code := 201; url := "https://api.squarespace.com/0.1/x";
     text := "{}"; json := Some (VDict []) |}.

Definition no_content_response : Response :=
  {| status_code := 204; url := "https://api.squarespace.com/0.1/x";
     text := "ignored"; json := Some (VStr "ignored") |}.

(** ** Further vocabulary *)

(** The two records the classifier logs for a success status it does not
    know: the status and the body, not the URL. *)
Definition unexpected_success_log (resp : Response) : list LogRecord :=
  [Log WARNING "Squarespace success response %s:" [AInt (status_code resp)];
   Log WARNING (text resp) []].

Definition unexpected_success_error : exn :=
  Exn NotImplementedError
    [AStr "Squarespace sent us a success response we're not prepared for!"].

(** The exception for status 401: the format string and the key, as the
    two arguments the code passes to [ValueError]. *)
Definition invalid_key_error (c : Squarespace) : exn :=
  Exn ValueError [AStr "The API key %s is not valid."; AStr (api_key c)].

(** A successful response whose envelope holds [page] and names no next
    cursor: the last page of a listing. *)
Definition final_response (resp : Response) (page : list value) : Prop :=
  (status_code resp = 200 ∨ status_code resp = 201) ∧
  ∃ env pagination,
    json resp = Some env ∧
    subscript env "pagination" = Ok pagination ∧
    contains "nextPageCursor" pagination = Ok false ∧
    subscript env "result" = Ok (VList page).

(** The requests of a listing as the client sends them: the first without
    parameters, request [S i] with the cursor that came with page [i]. *)
Definition listing_request_at (c : Squarespace) (cur : nat → value) (i : nat)
  : Request :=
  orders_request c
    match i with
    | O => []
    | S j => [("cursor", cur j)]
    end.

(** The history once the first [i] requests of the listing are out. *)
Definition listing_history (c : Squarespace) (cur : nat → value)
    (h0 : list Request) (i : nat) : list Request :=
  h0 ++ map (listing_request_at c cur) (seq 0 i).

(** A listing of [k + 1] pages: asked as the client asks, the server
    answers request [i < k] with page [i] and the cursor [cur i], and
    request [k] with the last page and no cursor.  Nothing is said of
    requests the client does not send, so the server may go by the
    cursor of the request or by the history. *)
Definition serves_listing (server : list Request → Request → exn + Response)
    (c : Squarespace) (h0 : list Request) (k : nat)
    (page : nat → list value) (cur : nat → value) : Prop :=
  (∀ i, (i < k)%nat →
        ∃ resp, server (listing_history c cur h0 i) (listing_request_at c cur i)
                  = inr resp ∧
                page_response resp (page i) (cur i)) ∧
  (∃ resp, server (listing_history c cur h0 k) (listing_request_at c cur k)
             = inr resp ∧
           final_response resp (page k)).

(** ASCII lower case, as header names are compared. *)
Definition ascii_lower (a : ascii) : ascii :=
  let n := nat_of_ascii a in
  if (65 <=? n)%nat && (n <=? 90)%nat then ascii_of_nat (n + 32) else a.

Fixpoint lower (s : string) : string :=
  match s with
  | EmptyString => EmptyString
  | String a s' => String (ascii_lower a) (lower s')
  end.

(** What every request of a listing looks like: a [GET] of the order list
    with the session's headers, no body, and either no parameters or the
    one truthy [cursor]. *)
Definition listing_request (c : Squarespace) (q : Request) : Prop :=
  req_method q = GET ∧
  req_url q = endpoint c "commerce/orders" ∧
  req_json q = None ∧
  req_headers q = http_headers c ∧
  (req_params q = [] ∨
   ∃ cur, truthy cur = true ∧ req_params q = [("cursor", cur)]).

(** The fields of the client no method may write. *)
Definition same_config (c c' : Squarespace) : Prop :=
  api_key c' = api_key c ∧ api_baseurl c' = api_baseurl c ∧
  api_version c' = api_version c ∧
  tracking_baseurl c' = tracking_baseurl c ∧
  http_headers c' = http_headers c ∧ _useragent c' = _useragent c ∧
  max_pages c' = max_pages c.

(** Every request of the run [new], sent after history [h], was answered
    by the server with status 200 or 201. *)
Fixpoint answered_ok (server : list Request → Request → exn + Response)
    (h new : list Request) : Prop :=
  match new with
  | [] => True
  | q :: rest =>
      (∃ resp, server h q = inr resp ∧
               (status_code resp = 200 ∨ status_code resp = 201)) ∧
      answered_ok server (h ++ [q]) rest
  end.

(** An order that carries an [orderNumber] other than [n]. *)
Definition other_number (n : value) (o : value) : Prop :=
  ∃ x, subscript o "orderNumber" = Ok x ∧ py_eq x n = false.

(** [client.max_pages = n]. *)
Definition with_max_pages (n : Z) (c : Squarespace) : Squarespace :=
  {| api_key := api_key c; api_baseurl := api_baseurl c;
     api_version := api_version c;
     tracking_baseurl := tracking_baseurl c;
     http_headers := http_headers c; _useragent := _useragent c;
     _next_page := _next_page c; max_pages := n |}.

(** The client [__init__] builds for the key ["secret"] and the defaults. *)
Definition fresh_client : Squarespace :=
  with_useragent "Squarespace python API v0.0.3 by Zach White."
    {| api_key := "secret";
       api_baseurl := default_api_baseurl;
       api_version := default_api_version;
       tracking_baseurl := default_tracking_baseurl;
       http_headers := <["Authorization" := "Bearer secret"]> ∅;
       _useragent := "";
       _next_page := VNone;
       max_pages := 20 |}.

(** A server that is down. *)
Definition dead_server (h : list Request) (r : Request) : exn + Response :=
  inl (Exn RequestException [AStr "connection refused"]).

(** A server that answers everything with one status and a plain body. *)
Definition status_server (s : Z) (h : list Request) (r : Request)
  : exn + Response :=
  inr {| status_code := s; url := req_url r; text := "oops"; json := None |}.

(** A shop whose listing has three pages and goes by the cursor of the
    request alone: no cursor gives the first page, ["c1"] the second,
    ["c2"] the last; anything else is a bad request. *)
Definition shop_page (i : nat) : list value :=
  [demo_order (dec (1001 + Z.of_nat i))].

Definition shop_cursor (i : nat) : value :=
  VStr ("c" +:+ dec (1 + Z.of_nat i)).

Definition listing_answer (r : Request) (page : list value)
    (cur : option value) : exn + Response :=
  inr {| status_code := 200; url := req_url r; text := "";
         json :=
           Some (VDict
                   [("result", VList page);
                    ("pagination",
                     VDict match cur with
                           | Some v => [("hasNextPage", VBool true);
                                        ("nextPageCursor", v)]
                           | None => [("hasNextPage", VBool false)]
                           end)]) |}.

Definition cursor_shop (h : list Request) (r : Request) : exn + Response :=
  match req_params r with
  | [] => listing_answer r (shop_page 0) (Some (shop_cursor 0))
  | [(_, VStr s)] =>
      if String.eqb s "c1"
      then listing_answer r (shop_page 1) (Some (shop_cursor 1))
      else if String.eqb s "c2"
           then listing_answer r (shop_page 2) None
           else status_server 400 h r
  | _ => status_server 400 h r
  end.


Definition held_client : Squarespace := with_next_page (VStr "held") demo_client.

(** ** The response classifier *)

(** Run the monadic plumbing of a goal. *)
Ltac mrun :=
  cbv [bind ret raise lift self logging gmtime set_next_page];
  cbn [orb andb negb fst snd].

Section Classifier.

Variable server : list Request → Request → exn + Response.

Lemma process_request_json (request : Response) (body : value) c w :
  status_code request = 200 ∨ status_code request = 201 →
  json request = Some body →
  process_request request c w = (Ok body, c, w).
Proof.
  intros Hs Hj. unfold process_request.
  destruct Hs as [-> | ->]; simpl; rewrite Hj; reflexivity.
Qed.

Lemma process_request_self (request : Response) c w :
  client_of (process_request request c w) = c.
Proof.
  unfold process_request.
  repeat match goal with
         | |- context [if ?b then _ else _] => destruct b
         | |- context [match json ?r with _ => _ end] => destruct (json r)
         end; reflexivity.
Qed.

Lemma process_request_trace (request : Response) c w :
  trace (world_of (process_request request c w)) = trace w.
Proof.
  unfold process_request.
  repeat match goal with
         | |- context [if ?b then _ else _] => destruct b
         | |- context [match json ?r with _ => _ end] => destruct (json r)
         end; reflexivity.
Qed.

Lemma process_request_total (request : Response) c w :
  result_of (process_request request c w) ≠ OutOfFuel.
Proof.
  unfold process_request.
  repeat match goal with
         | |- context [if ?b then _ else _] => destruct b
         | |- context [match json ?r with _ => _ end] => destruct (json r)
         end; discriminate.
Qed.

(** 400..498 apart from 401: the "bogus request" error, after the three
    error records. *)
Lemma process_request_4xx (request : Response) c w :
  400 ≤ status_code request < 499 → status_code request ≠ 401 →
  process_request request c w =
    (Raise client_request_error, c, with_log (error_log request) w).
Proof.
  intros Hr Hne. unfold process_request.
  replace (status_code request =? 200) with false by lia.
  replace (status_code request =? 201) with false by lia.
  replace (status_code request =? 204) with false by lia.
  replace (status_code request =? 401) with false by lia.
  replace (status_code request <? 299) with false by lia.
  replace (400 <=? status_code request) with true by lia.
  replace (status_code request <? 499) with true by lia.
  rewrite andb_false_r. mrun. unfold with_log, logged, error_log.
  cbn [trace log clock]. rewrite <- !app_assoc. reflexivity.
Qed.

(** 500..598: the "having problems" error, after the three error records. *)
Lemma process_request_5xx (request : Response) c w :
  500 ≤ status_code request < 599 →
  process_request request c w =
    (Raise server_error, c, with_log (error_log request) w).
Proof.
  intros Hr. unfold process_request.
  replace (status_code request =? 200) with false by lia.
  replace (status_code request =? 201) with false by lia.
  replace (status_code request =? 204) with false by lia.
  replace (status_code request =? 401) with false by lia.
  replace (status_code request <? 299) with false by lia.
  replace (400 <=? status_code request) with true by lia.
  replace (status_code request <? 499) with false by lia.
  replace (500 <=? status_code request) with true by lia.
  replace (status_code request <? 599) with true by lia.
  rewrite andb_false_r. mrun. unfold with_log, logged, error_log.
  cbn [trace log clock]. rewrite <- !app_assoc. reflexivity.
Qed.

(** C5: a response with status 200 or 201 is classified as its decoded JSON
    body, unchanged, and a response with status 204 as the boolean [True]
    whatever its body holds; neither touches the client, the log or the
    network. *)
Theorem process_request_success (request : Response) c w :
  (status_code request = 200 ∨ status_code request = 201 →
   ∀ body, json request = Some body →
     process_request request c w = (Ok body, c, w)) ∧
  (status_code request = 204 →
   process_request request c w = (Ok (VBool true), c, w)).
Proof.
  split.
  - intros Hs body Hj. exact (process_request_json request body c w Hs Hj).
  - intros Hs. unfold process_request. rewrite Hs. reflexivity.
Qed.

(** C2 (the code at the top of each range): status 499 and status 599 are
    classified as neither the client-request error nor the server error;
    after the three error records both fall through to the unknown-response
    error. *)
Theorem process_request_499_599 (u t : string) (j : option value) c w :
  let r499 := {| status_code := 499; url := u; text := t; json := j |} in
  let r599 := {| status_code := 599; url := u; text := t; json := j |} in
  process_request r499 c w =
    (Raise unknown_response_error, c, with_log (error_log r499) w) ∧
  process_request r599 c w =
    (Raise unknown_response_error, c, with_log (error_log r599) w) ∧
  unknown_response_error ≠ client_request_error ∧
  unknown_response_error ≠ server_error.
Proof.
  intros r499 r599. subst r499 r599.
  split; [| split; [| split; discriminate]];
    unfold process_request; simpl; mrun; unfold with_log, logged, error_log;
    cbn [trace log clock]; rewrite <- !app_assoc; reflexivity.
Qed.

End Classifier.

(** ** The low-level calls *)

Section Calls.

Variable server : list Request → Request → exn + Response.

Lemma get_unfold path args c w :
  get server path args c w =
    let w1 := sent (get_request c path args) (logged (get_debug c path args) w) in
    match server (trace w) (get_request c path args) with
    | inl e => (Raise e, c, w1)
    | inr resp => process_request resp c w1
    end.
Proof.
  unfold get, http_get, http_send. mrun. fold (query args).
  cbn [trace logged]. fold (get_request c path args).
  destruct (server (trace w) (get_request c path args)); reflexivity.
Qed.

Lemma post_unfold path object c w :
  post server path object c w =
    let w1 := sent (post_request c path object)
                (logged (post_debug c path object) w) in
    match server (trace w) (post_request c path object) with
    | inl e => (Raise e, c, w1)
    | inr resp => process_request resp c w1
    end.
Proof.
  unfold post, http_post, http_send. mrun.
  cbn [trace logged]. fold (post_request c path object).
  destruct (server (trace w) (post_request c path object)); reflexivity.
Qed.

Lemma get_self path args c w : client_of (get server path args c w) = c.
Proof.
  rewrite get_unfold. cbv zeta.
  destruct (server _ _); [reflexivity | apply process_request_self].
Qed.

Lemma post_self path object c w : client_of (post server path object c w) = c.
Proof.
  rewrite post_unfold. cbv zeta.
  destruct (server _ _); [reflexivity | apply process_request_self].
Qed.

Lemma get_trace path args c w :
  trace (world_of (get server path args c w)) =
    trace w ++ [get_request c path args].
Proof.
  rewrite get_unfold. cbv zeta.
  destruct (server _ _); [reflexivity | rewrite process_request_trace; reflexivity].
Qed.

Lemma post_trace path object c w :
  trace (world_of (post server path object c w)) =
    trace w ++ [post_request c path object].
Proof.
  rewrite post_unfold. cbv zeta.
  destruct (server _ _); [reflexivity | rewrite process_request_trace; reflexivity].
Qed.

Lemma get_total path args c w :
  result_of (get server path args c w) ≠ OutOfFuel.
Proof.
  rewrite get_unfold. cbv zeta.
  destruct (server _ _); [discriminate | apply process_request_total].
Qed.

Lemma pure_total (v : value) (k : string) : subscript v k ≠ OutOfFuel.
Proof. destruct v; try discriminate. simpl. destruct (dict_get k d); discriminate. Qed.

Lemma contains_total (k : string) (v : value) : contains k v ≠ OutOfFuel.
Proof. destruct v; discriminate. Qed.

Lemma iterate_total (v : value) : iterate v ≠ OutOfFuel.
Proof. destruct v; discriminate. Qed.

Lemma with_next_page_id c : with_next_page (_next_page c) c = c.
Proof. destruct c; reflexivity. Qed.

(** Destructure a run of [get] into its parts, with what is known of them. *)
Ltac run_get o c1 w1 :=
  match goal with
  | |- context [get ?srv ?path ?args ?c ?w] =>
      let E := fresh "Eget" in
      pose proof (get_self path args c w) as Hself;
      pose proof (get_trace path args c w) as Htrace;
      pose proof (get_total path args c w) as Htotal;
      destruct (get srv path args c w) as [[o c1] w1] eqn:E;
      unfold client_of, world_of, result_of in Hself, Htrace, Htotal;
      cbn [fst snd] in Hself, Htrace, Htotal; subst c1
  end.

(** [orders] sends one request, writes nothing but the cursor, and ends. *)
Lemma orders_inv args c w :
  trace (world_of (orders server args c w)) = trace w ++ [orders_request c args] ∧
  client_of (orders server args c w) =
    with_next_page (_next_page (client_of (orders server args c w))) c ∧
  result_of (orders server args c w) ≠ OutOfFuel.
Proof.
  unfold orders. mrun. run_get o c1 w1.
  unfold client_of, world_of, result_of, orders_request.
  destruct o as [result | e |]; cbn [fst snd]; [| | congruence].
  - pose proof (pure_total result "pagination").
    pose proof (pure_total result "result").
    destruct (subscript result "pagination") as [pg | e |] eqn:Hp;
      cbn [fst snd]; [| by rewrite with_next_page_id | congruence].
    pose proof (contains_total "nextPageCursor" pg).
    pose proof (pure_total pg "nextPageCursor").
    destruct (contains "nextPageCursor" pg) as [[|] | e |];
      cbn [fst snd]; [| | by rewrite with_next_page_id | congruence].
    + destruct (subscript pg "nextPageCursor") as [cur | e |];
        cbn [fst snd]; [| by rewrite with_next_page_id | congruence].
      destruct (subscript result "result"); cbn [fst snd]; (split; [assumption |]);
        (split; [reflexivity | congruence]).
    + destruct (subscript result "result"); cbn [fst snd]; (split; [assumption |]);
        (split; [reflexivity | congruence]).
  - rewrite with_next_page_id. split; [assumption |]. split; [reflexivity | discriminate].
Qed.

(** [orders] answered with a page and a cursor: the page is returned, the
    cursor held, one debug record logged and one request sent. *)
Lemma orders_page args c w resp page cur :
  server (trace w) (orders_request c args) = inr resp →
  page_response resp page cur →
  orders server args c w =
    (Ok (VList page), with_next_page cur c,
     sent (orders_request c args)
       (logged (get_debug c "commerce/orders" (Some args)) w)).
Proof.
  intros Hsrv (Hst & env & pg & Hj & Hp & Hin & Hcur & _ & Hres).
  unfold orders. mrun. rewrite get_unfold. cbv zeta.
  fold (orders_request c args). rewrite Hsrv.
  rewrite (process_request_json resp env _ _ Hst Hj). cbv beta iota.
  rewrite Hp. cbv beta iota. rewrite Hin. cbv beta iota.
  rewrite Hcur. cbv beta iota. rewrite Hres. reflexivity.
Qed.


Lemma next_page_exhausted c w :
  truthy (_next_page c) = false →
  next_page server c w = (Ok VNone, c, w).
Proof. intros H. unfold next_page. mrun. rewrite H. reflexivity. Qed.

Lemma next_page_held c w :
  truthy (_next_page c) = true →
  next_page server c w = orders server [("cursor", _next_page c)] c w.
Proof. intros H. unfold next_page. mrun. rewrite H. reflexivity. Qed.


End Calls.

(** ** Paging *)

Section Paging.

Variable server : list Request → Request → exn + Response.

Lemma only_pages_refl {A} (o : outcome A) c w : only_pages c w (o, c, w).
Proof.
  split; [| symmetry; apply with_next_page_id].
  exists []. split; [symmetry; apply app_nil_r | constructor].
Qed.

Lemma only_pages_trans {A B} (o1 : outcome A) c1 w1 c w
    (r : outcome B * Squarespace * World) :
  only_pages c w (o1, c1, w1) → only_pages c1 w1 r → only_pages c w r.
Proof.
  unfold only_pages, client_of, world_of. cbn [fst snd].
  intros [(n1 & Ht1 & Hf1) Hc1] [(n2 & Ht2 & Hf2) Hc2].
  assert (He : endpoint c1 "commerce/orders" = endpoint c "commerce/orders")
    by (rewrite Hc1; reflexivity).
  split.
  - exists (n1 ++ n2). split; [rewrite Ht2, Ht1, app_assoc; reflexivity |].
    apply Forall_app. split; [assumption |].
    eapply Forall_impl; [exact Hf2 |]. intros q [? ?]. split; congruence.
  - rewrite Hc2. rewrite Hc1. reflexivity.
Qed.

Lemma only_pages_logged {A} (o : outcome A) rec c0 w0 c w :
  only_pages c0 w0 (o, c, w) → only_pages c0 w0 (o, c, logged rec w).
Proof. intros H. exact H. Qed.

Lemma orders_only_pages args c w : only_pages c w (orders server args c w).
Proof.
  destruct (orders_inv server args c w) as (Ht & Hc & _).
  split; [| exact Hc].
  exists [orders_request c args]. split; [exact Ht |].
  constructor; [split; reflexivity | constructor].
Qed.

Lemma next_page_inv c w :
  only_pages c w (next_page server c w) ∧
  result_of (next_page server c w) ≠ OutOfFuel.
Proof.
  destruct (truthy (_next_page c)) eqn:Hc.
  - rewrite (next_page_held server c w Hc).
    split; [apply orders_only_pages | apply orders_inv].
  - rewrite (next_page_exhausted server c w Hc).
    split; [apply only_pages_refl | discriminate].
Qed.

Lemma all_orders_loop_done fuel count orders c w :
  truthy (_next_page c) = false →
  all_orders_loop server fuel count orders c w = (Ok orders, c, w).
Proof. intros H. destruct fuel; cbn [all_orders_loop]; mrun; rewrite H; reflexivity. Qed.

Lemma all_orders_loop_step fuel count orders c w :
  truthy (_next_page c) = true →
  all_orders_loop server (S fuel) count orders c w =
    match getattr_extend orders with
    | Ok l =>
        match next_page server c w with
        | (Ok page, c1, w1) =>
            match extend l page with
            | Ok orders' =>
                if count + 1 >=? max_pages c1
                then (Ok orders', c1, logged (max_pages_warning c1) w1)
                else all_orders_loop server fuel (count + 1) orders' c1 w1
            | Raise e => (Raise e, c1, w1)
            | OutOfFuel => (OutOfFuel, c1, w1)
            end
        | (Raise e, c1, w1) => (Raise e, c1, w1)
        | (OutOfFuel, c1, w1) => (OutOfFuel, c1, w1)
        end
    | Raise e => (Raise e, c, w)
    | OutOfFuel => (OutOfFuel, c, w)
    end.
Proof.
  intros H. cbn [all_orders_loop]. mrun. rewrite H.
  destruct (getattr_extend orders) as [l | e |]; [| reflexivity | reflexivity].
  destruct (next_page server c w) as [[[page | e |] c1] w1];
    [| reflexivity | reflexivity].
  destruct (extend l page); [| reflexivity | reflexivity].
  destruct (count + 1 >=? max_pages c1); reflexivity.
Qed.

Lemma extend_total l page : extend l page ≠ OutOfFuel.
Proof.
  unfold extend. pose proof (iterate_total page).
  destruct (iterate page); congruence.
Qed.

(** The loop keeps to the order list, whatever the fuel. *)
Lemma all_orders_loop_only_pages fuel :
  ∀ count orders c w,
    only_pages c w (all_orders_loop server fuel count orders c w).
Proof.
  induction fuel as [| fuel IH]; intros count orders c w;
    destruct (truthy (_next_page c)) eqn:Hc;
    try (rewrite all_orders_loop_done by assumption; apply only_pages_refl).
  - cbn [all_orders_loop]. mrun. rewrite Hc. apply only_pages_refl.
  - rewrite all_orders_loop_step by assumption.
    destruct (getattr_extend orders) as [l | e |]; try apply only_pages_refl.
    destruct (next_page_inv c w) as [Hn _].
    destruct (next_page server c w) as [[[page | e |] c1] w1];
      try exact Hn.
    destruct (extend l page);
      try (eapply only_pages_trans; [exact Hn | apply only_pages_refl]).
    destruct (count + 1 >=? max_pages c1).
    + eapply only_pages_trans; [exact Hn |].
      apply only_pages_logged, only_pages_refl.
    + eapply only_pages_trans; [exact Hn | apply IH].
Qed.

(** With one unit of fuel per remaining page the loop never runs dry. *)
Lemma all_orders_loop_total fuel :
  ∀ count orders c w,
    (Z.to_nat (Z.max 1 (max_pages c - count)) ≤ fuel)%nat →
    result_of (all_orders_loop server fuel count orders c w) ≠ OutOfFuel.
Proof.
  induction fuel as [| fuel IH]; intros count orders c w Hfuel;
    [lia |].
  destruct (truthy (_next_page c)) eqn:Hc;
    [| rewrite all_orders_loop_done by assumption; discriminate].
  rewrite all_orders_loop_step by assumption.
  destruct (getattr_extend orders) as [l | e |] eqn:Hg; try discriminate.
  { destruct (next_page_inv c w) as [[_ Hcfg] Hn].
    destruct (next_page server c w) as [[[page | e |] c1] w1];
      try discriminate; [| exact Hn].
    unfold client_of in Hcfg. cbn [fst snd] in Hcfg.
    assert (Hmp : max_pages c1 = max_pages c) by (rewrite Hcfg; reflexivity).
    pose proof (extend_total l page).
    destruct (extend l page); try discriminate; [| congruence].
    destruct (count + 1 >=? max_pages c1) eqn:Hcap; [discriminate |].
    apply IH. lia. }
  destruct orders; discriminate.
Qed.

Lemma all_orders_only_pages c w : only_pages c w (all_orders server c w).
Proof.
  unfold all_orders. mrun.
  pose proof (orders_only_pages [] c w) as Ho.
  destruct (orders server [] c w) as [[[v | e |] c1] w1]; try exact Ho.
  eapply only_pages_trans; [exact Ho | apply all_orders_loop_only_pages].
Qed.

(** [all_orders] always comes back: with a list of orders or an exception. *)
Lemma all_orders_total c w : result_of (all_orders server c w) ≠ OutOfFuel.
Proof.
  unfold all_orders. mrun.
  destruct (orders_inv server [] c w) as (_ & _ & Ho).
  destruct (orders server [] c w) as [[[v | e |] c1] w1];
    try discriminate; [| exact Ho].
  apply all_orders_loop_total. lia.
Qed.

(** Against a server that never runs out of cursors the loop stops only at
    the cap: entered with [count] pages behind it, it fetches
    [max 1 (max_pages - count)] further pages, appends them in order and
    logs the warning last. *)
Lemma all_orders_loop_capped page (Hsrv : always_reports_cursor server page) fuel :
  ∀ count acc c w,
    truthy (_next_page c) = true →
    (Z.to_nat (Z.max 1 (max_pages c - count)) ≤ fuel)%nat →
    ∃ new cur w',
      all_orders_loop server fuel count (VList acc) c w =
        (Ok (VList (acc ++ served page (trace w) new)), with_next_page cur c, w') ∧
      trace w' = trace w ++ new ∧
      length new = Z.to_nat (Z.max 1 (max_pages c - count)) ∧
      last (log w') = Some (max_pages_warning c).
Proof.
  induction fuel as [| fuel IH]; intros count acc c w Hc Hfuel; [lia |].
  rewrite all_orders_loop_step by assumption. cbn [getattr_extend].
  rewrite next_page_held by assumption.
  set (args := [("cursor", _next_page c)]).
  destruct (Hsrv (trace w) (orders_request c args)) as (resp & cur & Hr & Hpage).
  rewrite (orders_page server args c w resp _ cur Hr Hpage).
  pose proof Hpage as (_ & _ & _ & _ & _ & _ & _ & Hcur & _).
  set (r := orders_request c args) in *.
  set (w1 := sent r _).
  unfold extend. cbn [iterate].
  change (max_pages (with_next_page cur c)) with (max_pages c).
  destruct (count + 1 >=? max_pages c) eqn:Hcap.
  - exists [r], cur, (logged (max_pages_warning (with_next_page cur c)) w1).
    split; [cbn [served]; rewrite app_nil_r; reflexivity |].
    split; [reflexivity |]. split; [cbn [length]; lia |].
    cbn [logged log]. apply last_snoc.
  - destruct (IH (count + 1) (acc ++ page (trace w) r)
                (with_next_page cur c) w1) as (new & cur' & w' & Hrun & Ht & Hlen & Hlog).
    { exact Hcur. }
    { change (max_pages (with_next_page cur c)) with (max_pages c). lia. }
    exists (r :: new), cur', w'.
    split.
    { rewrite Hrun. cbn [served].
      change (trace w1) with (trace w ++ [r]).
      rewrite <- app_assoc. reflexivity. }
    split.
    { rewrite Ht. change (trace w1) with (trace w ++ [r]).
      rewrite <- app_assoc. reflexivity. }
    split; [| exact Hlog].
    cbn [length]. rewrite Hlen.
    change (max_pages (with_next_page cur c)) with (max_pages c). lia.
Qed.

(** What [all_orders] does against such a server, for any cap. *)
Lemma all_orders_capped page (Hsrv : always_reports_cursor server page) c w :
  ∃ new cur w',
    all_orders server c w =
      (Ok (VList (served page (trace w) new)), with_next_page cur c, w') ∧
    trace w' = trace w ++ new ∧
    length new = S (Z.to_nat (Z.max 1 (max_pages c))) ∧
    last (log w') = Some (max_pages_warning c).
Proof.
  unfold all_orders. mrun.
  destruct (Hsrv (trace w) (orders_request c [])) as (resp & cur & Hr & Hpage).
  rewrite (orders_page server [] c w resp _ cur Hr Hpage).
  pose proof Hpage as (_ & _ & _ & _ & _ & _ & _ & Hcur & _).
  set (r := orders_request c []) in *.
  set (w1 := sent r _).
  destruct (all_orders_loop_capped page Hsrv
              (S (Z.to_nat (max_pages (with_next_page cur c)))) 0
              (page (trace w) r) (with_next_page cur c) w1)
    as (new & cur' & w' & Hrun & Ht & Hlen & Hlog).
  { exact Hcur. }
  { change (max_pages (with_next_page cur c)) with (max_pages c). lia. }
  exists (r :: new), cur', w'.
  split; [rewrite Hrun; reflexivity |].
  split.
  { rewrite Ht. change (trace w1) with (trace w ++ [r]).
    rewrite <- app_assoc. reflexivity. }
  split; [| exact Hlog].
  cbn [length]. rewrite Hlen.
  change (max_pages (with_next_page cur c)) with (max_pages c).
  f_equal. f_equal. lia.
Qed.

(** C1 (the code at [max_pages = 3]): against a server that always reports
    a next cursor, [all_orders] sends four requests, not three: the first
    page through [orders] and then three through [next_page].  It returns
    the four pages concatenated in order and logs the max-pages warning
    last. *)
Theorem all_orders_max_pages_3 page c w :
  always_reports_cursor server page →
  max_pages c = 3 →
  ∃ r1 r2 r3 r4 cur w',
    all_orders server c w =
      (Ok (VList (page (trace w) r1 ++
                  page (trace w ++ [r1]) r2 ++
                  page (trace w ++ [r1; r2]) r3 ++
                  page (trace w ++ [r1; r2; r3]) r4)),
       with_next_page cur c, w') ∧
    trace w' = trace w ++ [r1; r2; r3; r4] ∧
    last (log w') = Some (max_pages_warning c).
Proof.
  intros Hsrv Hmp.
  destruct (all_orders_capped page Hsrv c w)
    as (new & cur & w' & Hrun & Ht & Hlen & Hlog).
  rewrite Hmp in Hlen. change (S (Z.to_nat (Z.max 1 3))) with 4%nat in Hlen.
  destruct new as [| r1 [| r2 [| r3 [| r4 [| r5 rest]]]]]; try discriminate Hlen.
  exists r1, r2, r3, r4, cur, w'.
  split; [| split; [exact Ht | exact Hlog]].
  rewrite Hrun. cbn [served]. rewrite app_nil_r, <- !app_assoc. reflexivity.
Qed.

End Paging.

(** ** Single orders *)

Section Orders.

Variable server : list Request → Request → exn + Response.

Lemma append_inj (s a b : string) : s +:+ a = s +:+ b → a = b.
Proof. induction s as [| x s IH]; cbn; [tauto | intros [= H]; auto]. Qed.

Lemma endpoint_inj c (p q : string) : endpoint c p = endpoint c q → p = q.
Proof.
  unfold endpoint. intros H.
  repeat (apply append_inj in H). exact H.
Qed.

Lemma scan_first_match n l :
  Forall has_order_number l → scan n l = Ok (first_match n l).
Proof.
  unfold first_match. induction 1 as [| o l [x Hx] _ IH]; [reflexivity |].
  cbn [scan List.find]. unfold number_is at 1. rewrite Hx.
  destruct (py_eq x n); [reflexivity | exact IH].
Qed.

(** A truthy [order_id] means one [GET] and no change to the client. *)
Lemma order_by_id_self order_id order_number c w :
  truthy order_id = true →
  client_of (order server order_id order_number c w) = c.
Proof.
  intros H. unfold order. rewrite H.
  destruct order_id; try reflexivity. apply get_self.
Qed.

(** A falsy [order_id] is as good as none. *)
Lemma order_falsy_id order_id order_number c w :
  truthy order_id = false →
  order server order_id order_number c w =
    order server VNone order_number c w.
Proof. intros H. unfold order. rewrite H. reflexivity. Qed.

Lemma order_by_number_run order_number c w :
  truthy order_number = true →
  order server VNone order_number c w =
    match all_orders server c w with
    | (Ok all, c', w') =>
        (match iterate all with
         | Ok l => scan order_number l
         | Raise e => Raise e
         | OutOfFuel => OutOfFuel
         end, c', w')
    | (Raise e, c', w') => (Raise e, c', w')
    | (OutOfFuel, c', w') => (OutOfFuel, c', w')
    end.
Proof.
  intros H. unfold order. cbn [truthy]. rewrite H. mrun.
  destruct (all_orders server c w) as [[[all | e |] c'] w']; try reflexivity.
  destruct (iterate all); reflexivity.
Qed.

Lemma order_no_id_only_pages order_number c w :
  only_pages c w (order server VNone order_number c w).
Proof.
  destruct (truthy order_number) eqn:H.
  - rewrite order_by_number_run by assumption.
    pose proof (all_orders_only_pages server c w) as Ha.
    destruct (all_orders server c w) as [[[all | e |] c'] w']; exact Ha.
  - unfold order. cbn [truthy]. rewrite H. apply only_pages_refl.
Qed.

(** C7: [order()] with neither selector raises the missing-selector error
    ([SquarespaceError] in the code) and leaves client and world as they
    were, so no request is sent. *)
Theorem order_without_selector c w :
  order server VNone VNone c w = (Raise missing_selector_error, c, w).
Proof. reflexivity. Qed.

(** C10: an empty-string [order_id] behaves exactly as an absent one.  The
    call equals the call without [order_id]; with a truthy [order_number]
    it falls through to the scan: it runs [all_orders], iterates over what
    that returns and hands back what the scan finds (the first order with
    that number, or [None], when the fetched orders carry their numbers);
    with [order_number] absent or falsy it raises the missing-selector
    error and sends nothing; and every request it sends goes to the order
    list, never to [commerce/orders/] with an empty id. *)
Theorem order_empty_id_is_no_id order_number c w :
  order server (VStr "") order_number c w =
    order server VNone order_number c w ∧
  order server (VStr "") VNone c w = (Raise missing_selector_error, c, w) ∧
  (truthy order_number = true →
   order server (VStr "") order_number c w =
     match all_orders server c w with
     | (Ok all, c', w') =>
         (match iterate all with
          | Ok l => scan order_number l
          | Raise e => Raise e
          | OutOfFuel => OutOfFuel
          end, c', w')
     | (Raise e, c', w') => (Raise e, c', w')
     | (OutOfFuel, c', w') => (OutOfFuel, c', w')
     end ∧
   ∀ l, result_of (all_orders server c w) = Ok (VList l) →
        Forall has_order_number l →
        order server (VStr "") order_number c w =
          (Ok (first_match order_number l),
           client_of (all_orders server c w),
           world_of (all_orders server c w))) ∧
  (truthy order_number = false →
   order server (VStr "") order_number c w =
     (Raise missing_selector_error, c, w)) ∧
  ∃ new,
    trace (world_of (order server (VStr "") order_number c w)) = trace w ++ new ∧
    Forall (λ q, req_url q = endpoint c "commerce/orders" ∧
                 req_url q ≠ endpoint c ("commerce/orders/" +:+ "")) new.
Proof.
  split; [reflexivity |]. split; [reflexivity |].
  rewrite order_falsy_id by reflexivity.
  split; [| split].
  - intros Ht. rewrite order_by_number_run by assumption.
    split; [reflexivity |]. intros l Hall Hl.
    destruct (all_orders server c w) as [[o c'] w'].
    unfold result_of in Hall. cbn [fst snd] in Hall. subst o.
    cbn [iterate]. rewrite (scan_first_match _ _ Hl). reflexivity.
  - intros Hf. unfold order. cbn [truthy]. rewrite Hf. reflexivity.
  - destruct (order_no_id_only_pages order_number c w) as [(new & Ht & Hf) _].
    exists new. split; [exact Ht |].
    eapply Forall_impl; [exact Hf |]. intros q [_ Hu]. split; [exact Hu |].
    rewrite Hu. intros H. apply endpoint_inj in H. discriminate H.
Qed.

(** C6 (as the code has it): a truthy [order_number] with no [order_id]
    runs [all_orders] and, when every fetched order carries an
    [orderNumber], returns the first order whose [orderNumber] equals it,
    or [None] when there is none; a falsy [order_number] (empty string,
    zero, [None]) raises the missing-selector error without a request. *)
Theorem order_by_number order_number c w :
  (truthy order_number = true →
   ∀ l, result_of (all_orders server c w) = Ok (VList l) →
        Forall has_order_number l →
        order server VNone order_number c w =
          (Ok (first_match order_number l),
           client_of (all_orders server c w),
           world_of (all_orders server c w))) ∧
  (truthy order_number = false →
   order server VNone order_number c w = (Raise missing_selector_error, c, w)).
Proof.
  split.
  - intros H l Hall Hl. rewrite order_by_number_run by assumption.
    destruct (all_orders server c w) as [[o c'] w'].
    unfold result_of in Hall. cbn [fst snd] in Hall. subst o.
    cbn [iterate]. rewrite (scan_first_match _ _ Hl). reflexivity.
  - intros H. unfold order. cbn [truthy]. rewrite H. reflexivity.
Qed.

(** C9: [get], [post], [fulfill], [order] by id (called with [order_id]
    alone, or with a non-empty [order_id] and any [order_number]) and the
    user-agent setter leave the held cursor as it was; so does the
    classifier they all end in.  Only [orders], and what calls it, writes
    the cursor. *)
Theorem cursor_untouched c w :
  (∀ request,
     _next_page (client_of (process_request request c w)) = _next_page c) ∧
  (∀ a id order_number,
     _next_page (client_of (order server (VStr (String a id)) order_number c w)) =
       _next_page c) ∧
  (∀ path args,
     _next_page (client_of (get server path args c w)) = _next_page c) ∧
  (∀ path object,
     _next_page (client_of (post server path object c w)) = _next_page c) ∧
  (∀ order_id tracking_number carrier_name service_name tracking,
     _next_page (client_of (fulfill server order_id tracking_number
                              carrier_name service_name tracking c w)) =
       _next_page c) ∧
  (∀ order_id,
     _next_page (client_of (order server order_id VNone c w)) = _next_page c) ∧
  (∀ agent_string,
     _next_page (client_of (set_useragent agent_string c w)) = _next_page c).
Proof.
  split; [| split; [| split; [| split; [| split; [| split]]]]]; intros.
  - rewrite process_request_self. reflexivity.
  - rewrite order_by_id_self by reflexivity. reflexivity.
  - rewrite get_self. reflexivity.
  - rewrite post_self. reflexivity.
  - unfold fulfill. mrun. rewrite post_self. reflexivity.
  - destruct (truthy order_id) eqn:H.
    + rewrite order_by_id_self by assumption. reflexivity.
    + unfold order. rewrite H. reflexivity.
  - reflexivity.
Qed.

End Orders.

(** ** Fulfilment *)

Section Fulfilment.

Variable server : list Request → Request → exn + Response.

Lemma year_fields : forallb (λ y, field 4 (dec y)) (seqZ 1000 9000) = true.
Proof. vm_compute. reflexivity. Qed.

Lemma pad2_fields : forallb (λ z, field 2 (pad2 z)) (seqZ 0 100) = true.
Proof. vm_compute. reflexivity. Qed.

Lemma dec_year y : 1000 ≤ y ≤ 9999 → field 4 (dec y) = true.
Proof.
  intros H. pose proof year_fields as Hall.
  rewrite forallb_forall in Hall. apply Hall.
  apply list_elem_of_In, elem_of_seqZ. lia.
Qed.

Lemma pad2_field z : 0 ≤ z ≤ 99 → field 2 (pad2 z) = true.
Proof.
  intros H. pose proof pad2_fields as Hall.
  rewrite forallb_forall in Hall. apply Hall.
  apply list_elem_of_In, elem_of_seqZ. lia.
Qed.

Lemma all_digits_append s rest :
  digits s = true → all_digits (String.length s) (s +:+ rest) = Some rest.
Proof.
  induction s as [| a s IH]; [reflexivity |].
  change (String a s +:+ rest) with (String a (s +:+ rest)).
  cbn [String.length all_digits digits].
  intros H. apply andb_true_iff in H as [Ha Hs]. rewrite Ha. auto.
Qed.

Lemma all_digits_field n s rest :
  field n s = true → all_digits n (s +:+ rest) = Some rest.
Proof.
  unfold field. intros H. apply andb_true_iff in H as [Hn Hd].
  apply Nat.eqb_eq in Hn. subst n. apply all_digits_append, Hd.
Qed.

Lemma strftime_ship_date t :
  strftime ship_date_format t =
    dec (tm_year t) +:+ "-" +:+ pad2 (tm_mon t) +:+ "-" +:+ pad2 (tm_mday t)
      +:+ "T" +:+ pad2 (tm_hour t) +:+ ":" +:+ pad2 (tm_min t) +:+ ":"
      +:+ pad2 (tm_sec t) +:+ "Z".
Proof. reflexivity. Qed.

Lemma expect_append a rest :
  expect a (String a EmptyString +:+ rest) = Some rest.
Proof.
  change (String a EmptyString +:+ rest) with (String a rest).
  cbn [expect]. rewrite Ascii.eqb_refl. reflexivity.
Qed.

(** One field of the pattern, then one separator. *)
Ltac ship_date_field :=
  erewrite all_digits_field
    by (first [apply dec_year | apply pad2_field]; lia);
  cbv beta iota;
  try (rewrite expect_append; cbv beta iota).

Lemma ship_date_matches t :
  valid_time t → matches_ship_date (strftime ship_date_format t) = true.
Proof.
  intros (Hy & Hm & Hd & HH & HM & HS).
  rewrite strftime_ship_date. unfold matches_ship_date, mbind, option_bind.
  do 5 ship_date_field.
  replace (pad2 (tm_sec t) +:+ "Z") with (pad2 (tm_sec t) +:+ "Z" +:+ "")
    by reflexivity.
  ship_date_field. reflexivity.
Qed.

(** The mapping [fulfill] posts. *)
Lemma fulfill_unfold order_id tracking_number carrier_name service_name arg c w :
  fulfill server order_id tracking_number carrier_name service_name arg c w =
    post server ("commerce/orders/" +:+ order_id +:+ "/fulfillments")
      (VDict
         [("shouldSendNotification", VBool true);
          ("shipments",
           VList
             [VDict
                [("shipDate", VStr (strftime ship_date_format (clock w)));
                 ("carrierName", carrier_name);
                 ("service", service_name);
                 ("trackingNumber", VStr tracking_number);
                 ("trackingUrl",
                  VStr (tracking_template c arg +:+ tracking_number))]])])
      c w.
Proof.
  unfold fulfill, tracking_template. mrun. cbn [truthy].
  destruct arg as [t |]; [| reflexivity].
  destruct (String.eqb t ""); reflexivity.
Qed.

(** C8 (as the code has it): [fulfill] sends exactly one request, a [POST]
    to [commerce/orders/{order_id}/fulfillments], whose body lists exactly
    one shipment; its [trackingUrl] is the template followed by the tracking
    number, the template being the argument unless that is absent or empty,
    else the client's; and, the clock showing a four-digit year, its
    [shipDate] matches [YYYY-MM-DDTHH:MM:SSZ]. *)
Theorem fulfill_request order_id tracking_number carrier_name service_name arg c w :
  valid_time (clock w) →
  ∃ body shipment date,
    trace (world_of (fulfill server order_id tracking_number carrier_name
                       service_name arg c w)) =
      trace w ++
        [{| req_method := POST;
            req_url := endpoint c ("commerce/orders/" +:+ order_id +:+ "/fulfillments");
            req_params := [];
            req_json := Some body;
            req_headers := http_headers c |}] ∧
    subscript body "shipments" = Ok (VList [shipment]) ∧
    subscript shipment "trackingUrl" =
      Ok (VStr (tracking_template c arg +:+ tracking_number)) ∧
    subscript shipment "trackingNumber" = Ok (VStr tracking_number) ∧
    subscript shipment "shipDate" = Ok (VStr date) ∧
    matches_ship_date date = true.
Proof.
  intros Ht. rewrite fulfill_unfold, post_trace.
  eexists _, _, _. split; [reflexivity |].
  split; [reflexivity |]. split; [reflexivity |]. split; [reflexivity |].
  split; [reflexivity |]. apply ship_date_matches, Ht.
Qed.

End Fulfilment.

(** ** Construction *)

(** C3 (as the code has it): construction checks nothing about the key.  For
    every key, the empty one included, it succeeds; the session then carries
    the header [Authorization: Bearer <key>] and the library's user agent,
    no cursor is held and [max_pages] is 20. *)
Theorem init_succeeds (session_headers : gmap string string)
    (key baseurl version tracking : string) :
  ∃ c,
    __init__ session_headers key baseurl version tracking = Ok c ∧
    api_key c = key ∧
    http_headers c !! "Authorization" = Some ("Bearer " +:+ key) ∧
    http_headers c !! "User-Agent" = Some (_useragent c) ∧
    _useragent c = "Squarespace python API v0.0.3 by Zach White." ∧
    _next_page c = VNone ∧
    max_pages c = 20.
Proof.
  eexists. split; [reflexivity |]. cbn.
  split; [reflexivity |]. split.
  - rewrite lookup_insert_ne by discriminate. apply lookup_insert_eq.
  - split; [apply lookup_insert_eq |]. repeat split.
Qed.

(** ** The concrete shop at work *)

Lemma process_request_success_witness :
  process_request ok_response demo_client demo_world =
    (Ok (VDict []), demo_client, demo_world) ∧
  process_request no_content_response demo_client demo_world =
    (Ok (VBool true), demo_client, demo_world).
Proof.
  split.
  - apply (proj1 (process_request_success ok_response demo_client demo_world));
      [right; reflexivity | reflexivity].
  - apply (proj2 (process_request_success no_content_response
                    demo_client demo_world)).
    reflexivity.
Defined.


Lemma all_orders_max_pages_3_witness :
  max_pages demo_client = 3 ∧
  ∃ r1 r2 r3 r4 cur w',
    all_orders endless_server demo_client demo_world =
      (Ok (VList (endless_page [] r1 ++
                  endless_page [r1] r2 ++
                  endless_page [r1; r2] r3 ++
                  endless_page [r1; r2; r3] r4)),
       with_next_page cur demo_client, w') ∧
    trace w' = [r1; r2; r3; r4] ∧
    last (log w') = Some (max_pages_warning demo_client).
Proof.
  split; [reflexivity |].
  apply (all_orders_max_pages_3 endless_server endless_page
           demo_client demo_world); [| reflexivity].
  intros h r. eexists _, (VStr "next"). split; [reflexivity |].
  split; [left; reflexivity |].
  eexists _, _. repeat split; reflexivity.
Defined.

Lemma order_by_number_witness :
  order small_shop VNone (VStr "1002") demo_client demo_world =
    (Ok (demo_order "1002"),
     client_of (all_orders small_shop demo_client demo_world),
     world_of (all_orders small_shop demo_client demo_world)) ∧
  order small_shop VNone (VInt 0) demo_client demo_world =
    (Raise missing_selector_error, demo_client, demo_world).
Proof.
  split.
  - apply (proj1 (order_by_number small_shop (VStr "1002")
                    demo_client demo_world) eq_refl
             [demo_order "1001"; demo_order "1002"]);
      [reflexivity |].
    repeat constructor; eexists; reflexivity.
  - apply (proj2 (order_by_number small_shop (VInt 0)
                    demo_client demo_world)).
    reflexivity.
Defined.

Lemma order_empty_id_is_no_id_witness :
  order small_shop (VStr "") (VStr "1002") demo_client demo_world =
    (Ok (demo_order "1002"),
     client_of (all_orders small_shop demo_client demo_world),
     world_of (all_orders small_shop demo_client demo_world)) ∧
  length (trace (world_of (order small_shop (VStr "") (VStr "1002")
                             demo_client demo_world))) = 1%nat ∧
  order small_shop (VStr "") (VStr "") demo_client demo_world =
    (Raise missing_selector_error, demo_client, demo_world).
Proof.
  pose proof (order_empty_id_is_no_id small_shop (VStr "1002")
                demo_client demo_world) as (_ & _ & Hscan & _ & _).
  pose proof (order_empty_id_is_no_id small_shop (VStr "")
                demo_client demo_world) as (_ & _ & _ & Hraise & _).
  split; [| split; [reflexivity | exact (Hraise eq_refl)]].
  apply (proj2 (Hscan eq_refl) [demo_order "1001"; demo_order "1002"]);
    [reflexivity |].
  repeat constructor; eexists; reflexivity.
Defined.

Lemma fulfill_request_witness :
  valid_time (clock demo_world) ∧
  ∃ body shipment date,
    trace (world_of (fulfill small_shop "5f3a" "9400" (VStr "USPS")
                       (VStr "First Class Package")
                       (Some "https://track.example/") demo_client demo_world)) =
      trace demo_world ++
        [{| req_method := POST;
            req_url := endpoint demo_client
                         ("commerce/orders/" +:+ "5f3a" +:+ "/fulfillments");
            req_params := [];
            req_json := Some body;
            req_headers := http_headers demo_client |}] ∧
    subscript body "shipments" = Ok (VList [shipment]) ∧
    subscript shipment "trackingUrl" =
      Ok (VStr (tracking_template demo_client (Some "https://track.example/")
                +:+ "9400")) ∧
    subscript shipment "trackingNumber" = Ok (VStr "9400") ∧
    subscript shipment "shipDate" = Ok (VStr date) ∧
    matches_ship_date date = true.
Proof.
  assert (Ht : valid_time (clock demo_world))
    by (unfold valid_time; simpl; lia).
  split; [exact Ht |].
  exact (fulfill_request small_shop "5f3a" "9400" (VStr "USPS")
           (VStr "First Class Package") (Some "https://track.example/")
           demo_client demo_world Ht).
Defined.


(** C3, where the claim fails: the empty key is accepted; construction
    returns a client whose session says [Authorization: Bearer ], and
    raises nothing. *)
Lemma init_accepts_empty_key :
  (∃ c, __init__ ∅ "" default_api_baseurl default_api_version
          default_tracking_baseurl = Ok c ∧
        http_headers c !! "Authorization" = Some "Bearer ") ∧
  ¬ ∃ e, __init__ ∅ "" default_api_baseurl default_api_version
           default_tracking_baseurl = Raise e.
Proof.
  split.
  - eexists. split; reflexivity.
  - intros [e He]. discriminate He.
Qed.

(** C6, where the claim fails: with the empty string as [order_number] the
    two orders of the shop are not scanned; where the claim expects [None]
    for want of a match, the call raises the missing-selector error and
    sends nothing. *)
Lemma order_by_empty_number_raises :
  result_of (all_orders small_shop demo_client demo_world) =
    Ok (VList [demo_order "1001"; demo_order "1002"]) ∧
  first_match (VStr "") [demo_order "1001"; demo_order "1002"] = VNone ∧
  order small_shop VNone (VStr "") demo_client demo_world =
    (Raise missing_selector_error, demo_client, demo_world) ∧
  result_of (order small_shop VNone (VStr "") demo_client demo_world) ≠
    Ok VNone.
Proof.
  split; [reflexivity |]. split; [reflexivity |]. split; [reflexivity |].
  discriminate.
Qed.

(** C8, where the claim fails: given the empty string as template,
    [fulfill] does not use it; the tracking URL is the client's template
    followed by the number, not the number alone. *)
Lemma fulfill_empty_template_falls_back :
  ∃ body shipment,
    trace (world_of (fulfill small_shop "5f3a" "9400" (VStr "USPS")
                       (VStr "First Class Package") (Some "")
                       demo_client demo_world)) =
      [post_request demo_client "commerce/orders/5f3a/fulfillments" body] ∧
    subscript body "shipments" = Ok (VList [shipment]) ∧
    subscript shipment "trackingUrl" =
      Ok (VStr "https://tools.usps.com/go/TrackConfirmAction?tLabels=9400") ∧
    subscript shipment "trackingUrl" ≠ Ok (VStr ("" +:+ "9400")).
Proof.
  eexists _, _. split; [reflexivity |]. split; [reflexivity |].
  split; [reflexivity | discriminate].
Qed.

(** ** More on the response classifier *)

Section ClassifierMore.

(** Turn the status tests of a goal into cases with their arithmetic. *)
Ltac status_cases :=
  unfold process_request;
  repeat match goal with
         | |- context [if ?b then _ else _] => destruct b eqn:?
         | |- context [match json ?r with _ => _ end] => destruct (json r) eqn:?
         end;
  mrun.

Lemma process_request_ok_inv request c w v c' w' :
  process_request request c w = (Ok v, c', w') →
  ((status_code request = 200 ∨ status_code request = 201) ∧
   json request = Some v ∨
   status_code request = 204 ∧ v = VBool true) ∧ c' = c ∧ w' = w.
Proof.
  status_cases; intros [= <- <- <-] || discriminate 1.
  - split; [left; split; [lia | reflexivity] | split; reflexivity].
  - split; [right; split; [lia | reflexivity] | split; reflexivity].
Qed.

(** X1: the classifier hands back a value exactly when the status is 200 or
    201 and the body decodes, or the status is 204; for every other
    response it raises. *)
Theorem process_request_returns_iff request c w :
  (∃ v, result_of (process_request request c w) = Ok v) ↔
  (status_code request = 200 ∨ status_code request = 201) ∧
    json request ≠ None ∨
  status_code request = 204.
Proof.
  split.
  - intros [v Hv].
    destruct (process_request request c w) as [[o c'] w'] eqn:E.
    unfold result_of in Hv. cbn [fst snd] in Hv. subst o.
    apply process_request_ok_inv in E as [[[Hs Hj] | [Hs _]] _].
    + left. split; [exact Hs | congruence].
    + right. exact Hs.
  - intros [[Hs Hj] | Hs].
    + destruct (json request) as [body |] eqn:E; [| congruence].
      exists body. rewrite (process_request_json request body c w Hs E).
      reflexivity.
    + exists (VBool true). unfold process_request. rewrite Hs. reflexivity.
Qed.

(** X2: a success status the code does not know (202 to 298, apart from
    204) raises [NotImplementedError] after two warnings, the status and
    the body; the URL is not logged on this path. *)
Theorem process_request_unexpected_success request c w :
  200 < status_code request < 299 →
  status_code request ≠ 201 → status_code request ≠ 204 →
  process_request request c w =
    (Raise unexpected_success_error, c,
     with_log (unexpected_success_log request) w).
Proof.
  intros Hr H1 H4. unfold process_request.
  replace (status_code request =? 200) with false by lia.
  replace (status_code request =? 201) with false by lia.
  replace (status_code request =? 204) with false by lia.
  replace (status_code request =? 401) with false by lia.
  replace (200 <? status_code request) with true by lia.
  replace (status_code request <? 299) with true by lia.
  mrun. unfold with_log, logged, unexpected_success_log.
  cbn [trace log clock]. rewrite <- !app_assoc. reflexivity.
Qed.

(** X3: every status outside the ranges the code tests — below 200, from
    299 to 399, 499, and 599 or above — raises the unknown-response error
    after the three error records. *)
Theorem process_request_unknown request c w :
  status_code request < 200 ∨ 299 ≤ status_code request < 400 ∨
  status_code request = 499 ∨ 599 ≤ status_code request →
  process_request request c w =
    (Raise unknown_response_error, c, with_log (error_log request) w).
Proof.
  intros Hr. unfold process_request.
  replace (status_code request =? 200) with false by lia.
  replace (status_code request =? 201) with false by lia.
  replace (status_code request =? 204) with false by lia.
  replace (status_code request =? 401) with false by lia.
  replace ((200 <? status_code request) && (status_code request <? 299))
    with false by lia.
  replace ((400 <=? status_code request) && (status_code request <? 499))
    with false by lia.
  replace ((500 <=? status_code request) && (status_code request <? 599))
    with false by lia.
  mrun. unfold with_log, logged, error_log.
  cbn [trace log clock]. rewrite <- !app_assoc. reflexivity.
Qed.

(** X4: status 401 raises [ValueError] with the client's API key among the
    exception's arguments, and unlike the other failure paths writes no log
    record. *)
Theorem process_request_401 request c w :
  status_code request = 401 →
  process_request request c w = (Raise (invalid_key_error c), c, w) ∧
  In (AStr (api_key c)) (exn_args (invalid_key_error c)).
Proof.
  intros Hs. split; [| right; left; reflexivity].
  unfold process_request. rewrite Hs. reflexivity.
Qed.

End ClassifierMore.

Lemma process_request_returns_iff_witness :
  (∃ v, result_of (process_request ok_response demo_client demo_world) = Ok v) ∧
  status_code no_content_response = 204.
Proof.
  split.
  - apply (proj2 (process_request_returns_iff ok_response demo_client demo_world)).
    left. split; [right; reflexivity | discriminate].
  - assert (H : ∃ v, result_of (process_request no_content_response
                                  demo_client demo_world) = Ok v)
      by (eexists; reflexivity).
    destruct (proj1 (process_request_returns_iff no_content_response
                       demo_client demo_world) H) as [[_ Hj] | Hs];
      [reflexivity | exact Hs].
Defined.

Lemma process_request_unexpected_success_witness :
  process_request
    {| status_code := 202; url := "u"; text := "accepted"; json := None |}
    demo_client demo_world =
  (Raise unexpected_success_error, demo_client,
   with_log
     (unexpected_success_log
        {| status_code := 202; url := "u"; text := "accepted"; json := None |})
     demo_world).
Proof.
  apply process_request_unexpected_success; simpl; lia.
Defined.

Lemma process_request_unknown_witness :
  process_request
    {| status_code := 302; url := "u"; text := "moved"; json := None |}
    demo_client demo_world =
  (Raise unknown_response_error, demo_client,
   with_log
     (error_log {| status_code := 302; url := "u"; text := "moved"; json := None |})
     demo_world).
Proof.
  apply process_request_unknown; simpl; lia.
Defined.

Lemma process_request_401_witness :
  process_request
    {| status_code := 401; url := "u"; text := "denied"; json := None |}
    demo_client demo_world =
    (Raise (invalid_key_error demo_client), demo_client, demo_world) ∧
  In (AStr "secret") (exn_args (invalid_key_error demo_client)).
Proof.
  apply (process_request_401
           {| status_code := 401; url := "u"; text := "denied"; json := None |}
           demo_client demo_world).
  reflexivity.
Defined.

(** ** More on the low-level calls *)

Section CallsMore.

Variable server : list Request → Request → exn + Response.

(** X5: [get] and [post] each send exactly one request, whatever comes
    back, and leave the client as it was: there is no retry and no
    follow-up.  A [get] without arguments and a [get] with an empty
    dictionary are the same call. *)
Theorem get_post_send_once c w :
  (∀ path args,
     trace (world_of (get server path args c w)) =
       trace w ++ [get_request c path args] ∧
     client_of (get server path args c w) = c) ∧
  (∀ path object,
     trace (world_of (post server path object c w)) =
       trace w ++ [post_request c path object] ∧
     client_of (post server path object c w) = c) ∧
  (∀ path, get server path None c w = get server path (Some []) c w).
Proof.
  split; [| split].
  - intros path args. split; [apply get_trace | apply get_self].
  - intros path object. split; [apply post_trace | apply post_self].
  - reflexivity.
Qed.

(** X6: when transport fails, [get] and [post] pass the exception of
    [requests] on unchanged; the attempt is on record and the debug line
    is logged, but none of the classifier's records is. *)
Theorem transport_failure_propagates c w e :
  (∀ path args,
     server (trace w) (get_request c path args) = inl e →
     get server path args c w =
       (Raise e, c,
        sent (get_request c path args) (logged (get_debug c path args) w))) ∧
  (∀ path object,
     server (trace w) (post_request c path object) = inl e →
     post server path object c w =
       (Raise e, c,
        sent (post_request c path object)
          (logged (post_debug c path object) w))).
Proof.
  split.
  - intros path args H. rewrite get_unfold. cbv zeta. rewrite H. reflexivity.
  - intros path object H. rewrite post_unfold. cbv zeta. rewrite H. reflexivity.
Qed.

Lemma lower_differs (k k' : string) : lower k ≠ lower k' → k ≠ k'.
Proof. intros H ->. apply H. reflexivity. Qed.

(** X7: the user agent reads back as it was set; setting it rewrites the
    [User-Agent] header of the session, leaves every header whose name is
    not [User-Agent] in some spelling of upper and lower case as it was, a
    second setting replaces the first, and the world is not touched. *)
Theorem useragent_set_get agent c w :
  useragent (with_useragent agent c) w = (Ok agent, with_useragent agent c, w) ∧
  set_useragent agent c w = (Ok tt, with_useragent agent c, w) ∧
  http_headers (with_useragent agent c) !! "User-Agent" = Some agent ∧
  (∀ k, lower k ≠ lower "User-Agent" →
        http_headers (with_useragent agent c) !! k = http_headers c !! k) ∧
  (∀ agent0,
     with_useragent agent (with_useragent agent0 c) = with_useragent agent c).
Proof.
  split; [reflexivity |]. split; [reflexivity |].
  split; [apply lookup_insert_eq |]. split.
  - intros k Hk. cbn [with_useragent http_headers].
    apply lookup_insert_ne. apply not_eq_sym, lower_differs, Hk.
  - intros agent0. unfold with_useragent. cbn. f_equal.
    apply insert_insert_eq.
Qed.

(** X8: a client that [__init__] built for a key sends, with every [get]
    and every [post], exactly one request to [<baseurl>/<version>/<path>]
    that carries the header [Authorization: Bearer <key>] and the
    library's user agent; once the user agent is set anew, a [get] carries
    the new user agent and the same authorization. *)
Theorem requests_carry_bearer session_headers key baseurl version tracking c w :
  __init__ session_headers key baseurl version tracking = Ok c →
  (∀ path args,
     ∃ q, trace (world_of (get server path args c w)) = trace w ++ [q] ∧
          req_method q = GET ∧
          req_url q = baseurl +:+ "/" +:+ version +:+ "/" +:+ path ∧
          req_headers q !! "Authorization" = Some ("Bearer " +:+ key) ∧
          req_headers q !! "User-Agent" =
            Some "Squarespace python API v0.0.3 by Zach White.") ∧
  (∀ path object,
     ∃ q, trace (world_of (post server path object c w)) = trace w ++ [q] ∧
          req_method q = POST ∧
          req_url q = baseurl +:+ "/" +:+ version +:+ "/" +:+ path ∧
          req_headers q !! "Authorization" = Some ("Bearer " +:+ key) ∧
          req_headers q !! "User-Agent" =
            Some "Squarespace python API v0.0.3 by Zach White.") ∧
  (∀ agent path args,
     ∃ q, trace (world_of (get server path args
                             (client_of (set_useragent agent c w)) w)) =
            trace w ++ [q] ∧
          req_url q = baseurl +:+ "/" +:+ version +:+ "/" +:+ path ∧
          req_headers q !! "Authorization" = Some ("Bearer " +:+ key) ∧
          req_headers q !! "User-Agent" = Some agent).
Proof.
  intros [= <-].
  assert (Hauth : ∀ a (m : gmap string string),
            <["User-Agent" := a]> (<["Authorization" := "Bearer " +:+ key]> m)
              !! "Authorization" = Some ("Bearer " +:+ key)).
  { intros a m. rewrite lookup_insert_ne by discriminate.
    apply lookup_insert_eq. }
  split; [| split].
  - intros path args. eexists. split; [apply get_trace |].
    split; [reflexivity |]. split; [reflexivity |].
    split; [apply Hauth | apply lookup_insert_eq].
  - intros path object. eexists. split; [apply post_trace |].
    split; [reflexivity |]. split; [reflexivity |].
    split; [apply Hauth | apply lookup_insert_eq].
  - intros agent path args. eexists. split; [apply get_trace |].
    split; [reflexivity |]. split; [| apply lookup_insert_eq].
    cbn [get_request req_headers with_useragent http_headers
         set_useragent client_of fst snd].
    rewrite lookup_insert_ne by discriminate. apply Hauth.
Qed.

End CallsMore.

Lemma transport_failure_propagates_witness :
  get dead_server "commerce/orders" None demo_client demo_world =
    (Raise (Exn RequestException [AStr "connection refused"]), demo_client,
     sent (get_request demo_client "commerce/orders" None)
       (logged (get_debug demo_client "commerce/orders" None) demo_world)) ∧
  post dead_server "commerce/orders/1/fulfillments" VNone demo_client demo_world =
    (Raise (Exn RequestException [AStr "connection refused"]), demo_client,
     sent (post_request demo_client "commerce/orders/1/fulfillments" VNone)
       (logged (post_debug demo_client "commerce/orders/1/fulfillments" VNone)
          demo_world)).
Proof.
  split.
  - apply (proj1 (transport_failure_propagates dead_server demo_client
                    demo_world (Exn RequestException [AStr "connection refused"]))).
    reflexivity.
  - apply (proj2 (transport_failure_propagates dead_server demo_client
                    demo_world (Exn RequestException [AStr "connection refused"]))).
    reflexivity.
Defined.

Lemma useragent_set_get_witness :
  http_headers (with_useragent "probe/1.0" demo_client) !! "Authorization" =
    http_headers demo_client !! "Authorization".
Proof.
  apply (useragent_set_get "probe/1.0" demo_client demo_world).
  discriminate.
Defined.

Lemma requests_carry_bearer_witness :
  __init__ ∅ "secret" default_api_baseurl default_api_version
    default_tracking_baseurl = Ok fresh_client ∧
  ∀ path args,
    ∃ q, trace (world_of (get small_shop path args fresh_client demo_world)) =
           trace demo_world ++ [q] ∧
         req_method q = GET ∧
         req_url q =
           default_api_baseurl +:+ "/" +:+ default_api_version +:+ "/" +:+ path ∧
         req_headers q !! "Authorization" = Some ("Bearer " +:+ "secret") ∧
         req_headers q !! "User-Agent" =
           Some "Squarespace python API v0.0.3 by Zach White.".
Proof.
  split; [reflexivity |].
  exact (proj1 (requests_carry_bearer small_shop ∅ "secret" default_api_baseurl
                  default_api_version default_tracking_baseurl
                  fresh_client demo_world eq_refl)).
Defined.

(** ** More on listing *)

Section ListingMore.

Variable server : list Request → Request → exn + Response.

(** [orders] answered with a last page: the page is returned and no cursor
    is held. *)
Lemma orders_final args c w resp page :
  server (trace w) (orders_request c args) = inr resp →
  final_response resp page →
  orders server args c w =
    (Ok (VList page), with_next_page VNone c,
     sent (orders_request c args)
       (logged (get_debug c "commerce/orders" (Some args)) w)).
Proof.
  intros Hsrv (Hst & env & pg & Hj & Hp & Hin & Hres).
  unfold orders. mrun. rewrite get_unfold. cbv zeta.
  fold (orders_request c args). rewrite Hsrv.
  rewrite (process_request_json resp env _ _ Hst Hj). cbv beta iota.
  rewrite Hp. cbv beta iota. rewrite Hin. cbv beta iota.
  rewrite Hres. reflexivity.
Qed.

(** X9: when the request of [orders] fails — transport down, or any status
    other than 200 and 201 — [orders] raises and the client, its held
    cursor included, is as before; the stale cursor is what a later
    [next_page] will send. *)
Theorem orders_failure_keeps_cursor args c w :
  (∀ e, server (trace w) (orders_request c args) = inl e →
        result_of (orders server args c w) = Raise e ∧
        client_of (orders server args c w) = c) ∧
  (∀ resp, server (trace w) (orders_request c args) = inr resp →
           status_code resp ≠ 200 → status_code resp ≠ 201 →
           (∃ e, result_of (orders server args c w) = Raise e) ∧
           client_of (orders server args c w) = c).
Proof.
  split.
  - intros e H. unfold orders. mrun. rewrite get_unfold. cbv zeta.
    fold (orders_request c args). rewrite H. split; reflexivity.
  - intros resp H H200 H201. unfold orders. mrun. rewrite get_unfold. cbv zeta.
    fold (orders_request c args). rewrite H.
    set (w1 := sent _ _).
    pose proof (process_request_self resp c w1) as Hself.
    pose proof (process_request_total resp c w1) as Htot.
    destruct (process_request resp c w1) as [[[v | e |] c'] w'] eqn:E;
      unfold client_of, result_of in *; cbn [fst snd] in *; subst.
    + apply process_request_ok_inv in E as [[[Hs _] | [_ ->]] _]; [lia |].
      split; [eexists; reflexivity | reflexivity].
    + split; [eexists; reflexivity | reflexivity].
    + congruence.
Qed.

(** X10: the cursor is stored before the page is read out: an envelope
    that names a next cursor but has no [result] entry makes [orders]
    raise [KeyError], and the new cursor is held all the same. *)
Theorem orders_missing_result args c w resp d pg cur :
  server (trace w) (orders_request c args) = inr resp →
  status_code resp = 200 ∨ status_code resp = 201 →
  json resp = Some (VDict d) →
  dict_get "pagination" d = Some pg →
  contains "nextPageCursor" pg = Ok true →
  subscript pg "nextPageCursor" = Ok cur →
  dict_get "result" d = None →
  result_of (orders server args c w) = Raise (Exn KeyError [AStr "result"]) ∧
  client_of (orders server args c w) = with_next_page cur c.
Proof.
  intros Hsrv Hst Hj Hp Hin Hcur Hres.
  unfold orders. mrun. rewrite get_unfold. cbv zeta.
  fold (orders_request c args). rewrite Hsrv.
  rewrite (process_request_json resp _ _ _ Hst Hj). cbv beta iota.
  cbn [subscript]. rewrite Hp. cbv beta iota. rewrite Hin. cbv beta iota.
  rewrite Hcur. cbv beta iota. rewrite Hres. split; reflexivity.
Qed.

(** X11: with a cursor held, [next_page] sends exactly one request: a
    [GET] of the order list whose only parameter is that cursor. *)
Theorem next_page_sends_cursor c w :
  truthy (_next_page c) = true →
  trace (world_of (next_page server c w)) =
    trace w ++
      [{| req_method := GET;
          req_url := endpoint c "commerce/orders";
          req_params := [("cursor", _next_page c)];
          req_json := None;
          req_headers := http_headers c |}].
Proof.
  intros H. rewrite next_page_held by assumption.
  destruct (orders_inv server [("cursor", _next_page c)] c w) as (Ht & _).
  exact Ht.
Qed.

End ListingMore.

Lemma orders_failure_keeps_cursor_witness :
  (result_of (orders dead_server [] (with_next_page (VStr "held") demo_client)
                demo_world) =
     Raise (Exn RequestException [AStr "connection refused"]) ∧
   client_of (orders dead_server [] (with_next_page (VStr "held") demo_client)
                demo_world) = with_next_page (VStr "held") demo_client) ∧
  ((∃ e, result_of (orders (status_server 503) []
                      (with_next_page (VStr "held") demo_client) demo_world) =
           Raise e) ∧
   client_of (orders (status_server 503) []
                (with_next_page (VStr "held") demo_client) demo_world) =
     with_next_page (VStr "held") demo_client).
Proof.
  split.
  - apply (proj1 (orders_failure_keeps_cursor dead_server []
                    (with_next_page (VStr "held") demo_client) demo_world)).
    reflexivity.
  - eapply (proj2 (orders_failure_keeps_cursor (status_server 503) []
                     (with_next_page (VStr "held") demo_client) demo_world));
      [reflexivity | simpl; lia | simpl; lia].
Defined.

Lemma orders_missing_result_witness :
  let server := λ (h : list Request) (r : Request),
    inr {| status_code := 200; url := req_url r; text := "";
           json := Some (VDict [("pagination",
                                 VDict [("nextPageCursor", VStr "c2")])]) |}
    : exn + Response in
  result_of (orders server [] demo_client demo_world) =
    Raise (Exn KeyError [AStr "result"]) ∧
  client_of (orders server [] demo_client demo_world) =
    with_next_page (VStr "c2") demo_client.
Proof.
  intros server.
  eapply (orders_missing_result server [] demo_client demo_world);
    [reflexivity | left; reflexivity | reflexivity | reflexivity
     | reflexivity | reflexivity | reflexivity].
Defined.

Lemma next_page_sends_cursor_witness :
  trace (world_of (next_page small_shop
                     (with_next_page (VStr "held") demo_client) demo_world)) =
    trace demo_world ++
      [{| req_method := GET;
          req_url := endpoint (with_next_page (VStr "held") demo_client)
                       "commerce/orders";
          req_params := [("cursor", VStr "held")];
          req_json := None;
          req_headers := http_headers (with_next_page (VStr "held") demo_client) |}].
Proof.
  apply (next_page_sends_cursor small_shop
           (with_next_page (VStr "held") demo_client) demo_world).
  reflexivity.
Defined.

(** ** More on fetching all orders *)

Section AllOrdersMore.

Variable server : list Request → Request → exn + Response.

Section Listing.

Variable c : Squarespace.
Variable h0 : list Request.
Variable page : nat → list value.
Variable cur : nat → value.

Lemma listing_history_S i :
  listing_history c cur h0 (S i) =
    listing_history c cur h0 i ++ [listing_request_at c cur i].
Proof.
  unfold listing_history. rewrite seq_S, map_app, app_assoc. reflexivity.
Qed.

(** The loop in the middle of a listing of [k + 1] pages, the cap not in
    the way: page [p] is in, its cursor held, [j] more cursors are to
    come.  All remaining pages are appended, the cursor ends as [None],
    and the warning is logged exactly when the last page is also the page
    at which the count reaches [max_pages]. *)
Lemma all_orders_loop_listing k j :
  ∀ fuel count acc p w,
    serves_listing server c h0 k page cur →
    k = (S p + j)%nat →
    trace w = listing_history c cur h0 (S p) →
    truthy (cur p) = true →
    (j < fuel)%nat →
    count + Z.of_nat j + 1 ≤ max_pages c →
    ∃ recs w',
      all_orders_loop server fuel count (VList acc) (with_next_page (cur p) c) w =
        (Ok (VList (acc ++ concat (map page (seq (S p) (S j))))),
         with_next_page VNone c, w') ∧
      trace w' = listing_history c cur h0 (S k) ∧
      Forall (λ r, log_level r = DEBUG) recs ∧
      log w' = log w ++ recs ++
                 (if count + Z.of_nat j + 1 =? max_pages c
                  then [max_pages_warning c] else []).
Proof.
  induction j as [| j IH]; intros fuel count acc p w Hsrv Hk Ht Hc Hfuel Hcap;
    (destruct fuel as [| fuel]; [lia |]);
    rewrite all_orders_loop_step by exact Hc; cbn [getattr_extend];
    rewrite next_page_held by exact Hc;
    set (c1 := with_next_page (cur p) c);
    set (args := [("cursor", cur p)]).
  - destruct Hsrv as [_ (resp & Hr & Hpage)].
    rewrite Hk, Nat.add_0_r in Hr, Hpage. rewrite <- Ht in Hr.
    assert (Ho : orders server [("cursor", _next_page c1)] c1 w =
                 (Ok (VList (page (S p))), with_next_page VNone c,
                  sent (orders_request c1 args)
                    (logged (get_debug c1 "commerce/orders" (Some args)) w)))
      by exact (orders_final server args c1 w resp _ Hr Hpage).
    rewrite Ho. set (w1 := sent _ _).
    unfold extend. cbn [iterate].
    change (max_pages (with_next_page VNone c)) with (max_pages c).
    exists [get_debug c1 "commerce/orders" (Some args)].
    assert (Htr : trace w1 = listing_history c cur h0 (S k)).
    { rewrite Hk, Nat.add_0_r, listing_history_S, <- Ht. reflexivity. }
    cbn [seq map concat]. rewrite app_nil_r.
    rewrite Z.geb_leb.
    destruct (max_pages c <=? count + 1) eqn:Hge.
    + apply Z.leb_le in Hge.
      eexists. split; [reflexivity |]. split; [exact Htr |].
      split; [repeat constructor |].
      replace (count + Z.of_nat 0 + 1 =? max_pages c) with true
        by (symmetry; apply Z.eqb_eq; lia).
      cbn [logged log w1 sent]. rewrite <- app_assoc. reflexivity.
    + apply Z.leb_gt in Hge.
      rewrite all_orders_loop_done by reflexivity.
      eexists. split; [reflexivity |]. split; [exact Htr |].
      split; [repeat constructor |].
      replace (count + Z.of_nat 0 + 1 =? max_pages c) with false
        by (symmetry; apply Z.eqb_neq; lia).
      cbn [logged log w1 sent]. rewrite app_nil_r. reflexivity.
  - destruct (proj1 Hsrv (S p)) as (resp & Hr & Hpage); [lia |].
    rewrite <- Ht in Hr.
    pose proof Hpage as (_ & _ & _ & _ & _ & _ & _ & Hcur & _).
    assert (Ho : orders server [("cursor", _next_page c1)] c1 w =
                 (Ok (VList (page (S p))), with_next_page (cur (S p)) c,
                  sent (orders_request c1 args)
                    (logged (get_debug c1 "commerce/orders" (Some args)) w)))
      by exact (orders_page server args c1 w resp _ _ Hr Hpage).
    rewrite Ho. set (w1 := sent _ _).
    unfold extend. cbn [iterate].
    change (max_pages (with_next_page (cur (S p)) c)) with (max_pages c).
    rewrite Z.geb_leb.
    replace (max_pages c <=? count + 1) with false
      by (symmetry; apply Z.leb_gt; lia).
    destruct (IH fuel (count + 1) (acc ++ page (S p)) (S p) w1)
      as (recs & w' & Hrun & Htr & Hdbg & Hlog).
    { exact Hsrv. }
    { lia. }
    { rewrite listing_history_S, <- Ht. reflexivity. }
    { exact Hcur. }
    { lia. }
    { lia. }
    exists (get_debug c1 "commerce/orders" (Some args) :: recs), w'.
    split.
    { rewrite Hrun. cbn [seq map concat]. rewrite <- app_assoc. reflexivity. }
    split; [exact Htr |].
    split; [constructor; [reflexivity | exact Hdbg] |].
    rewrite Hlog.
    replace (count + 1 + Z.of_nat j + 1) with (count + Z.of_nat (S j) + 1) by lia.
    change (log w1)
      with (log w ++ [get_debug c1 "commerce/orders" (Some args)]).
    rewrite <- app_assoc. reflexivity.
Qed.

(** [all_orders] against a listing of [k + 1] pages that fits under the
    cap or just reaches it. *)
Lemma all_orders_fits k w :
  h0 = trace w →
  serves_listing server c h0 k page cur →
  k = O ∨ Z.of_nat k ≤ max_pages c →
  ∃ recs w',
    all_orders server c w =
      (Ok (VList (concat (map page (seq 0 (S k))))),
       with_next_page VNone c, w') ∧
    trace w' = listing_history c cur h0 (S k) ∧
    Forall (λ r, log_level r = DEBUG) recs ∧
    log w' = log w ++ recs ++
               (if (0 <? Z.of_nat k) && (Z.of_nat k =? max_pages c)
                then [max_pages_warning c] else []).
Proof.
  intros Hh Hsrv Hk. unfold all_orders. mrun.
  assert (Ht0 : trace w = listing_history c cur h0 0)
    by (unfold listing_history; cbn [seq map]; rewrite app_nil_r; congruence).
  destruct k as [| k].
  - destruct Hsrv as [_ (resp & Hr & Hpage)]. rewrite <- Ht0 in Hr.
    rewrite (orders_final server [] c w resp _ Hr Hpage).
    rewrite all_orders_loop_done by reflexivity.
    exists [get_debug c "commerce/orders" (Some [])]. eexists.
    split; [cbn [seq map concat]; rewrite app_nil_r; reflexivity |].
    split; [rewrite listing_history_S, <- Ht0; reflexivity |].
    split; [repeat constructor |].
    cbn [Z.of_nat Z.ltb Z.compare andb]. rewrite app_nil_r. reflexivity.
  - destruct Hk as [Hk | Hk]; [discriminate |].
    destruct (proj1 Hsrv O) as (resp & Hr & Hpage); [lia |].
    rewrite <- Ht0 in Hr.
    rewrite (orders_page server [] c w resp _ _ Hr Hpage).
    pose proof Hpage as (_ & _ & _ & _ & _ & _ & _ & Hcur & _).
    set (w1 := sent _ _).
    destruct (all_orders_loop_listing (S k) k
                (S (Z.to_nat (max_pages (with_next_page (cur O) c)))) 0
                (page O) O w1)
      as (recs & w' & Hrun & Htr & Hdbg & Hlog).
    { exact Hsrv. }
    { reflexivity. }
    { rewrite listing_history_S, <- Ht0. reflexivity. }
    { exact Hcur. }
    { change (max_pages (with_next_page (cur O) c)) with (max_pages c). lia. }
    { lia. }
    exists (get_debug c "commerce/orders" (Some []) :: recs), w'.
    split; [rewrite Hrun; reflexivity |].
    split; [exact Htr |].
    split; [constructor; [reflexivity | exact Hdbg] |].
    rewrite Hlog.
    change (log w1) with (log w ++ [get_debug c "commerce/orders" (Some [])]).
    replace (0 <? Z.of_nat (S k)) with true by (symmetry; apply Z.ltb_lt; lia).
    cbn [andb]. replace (0 + Z.of_nat k + 1) with (Z.of_nat (S k)) by lia.
    rewrite <- app_assoc. reflexivity.
Qed.

End Listing.

(** X12: when the listing ends after [k] cursors and [k] is below
    [max_pages] (or the first page is the only one), [all_orders] returns
    all [k + 1] pages in order, having sent exactly the [k + 1] requests
    of the listing (the first without parameters, each later one with the
    cursor of the page before), holds no cursor afterwards, and logs
    nothing but debug records: no warning. *)
Theorem all_orders_complete c page cur k w :
  serves_listing server c (trace w) k page cur →
  k = O ∨ Z.of_nat k < max_pages c →
  ∃ recs w',
    all_orders server c w =
      (Ok (VList (concat (map page (seq 0 (S k))))),
       with_next_page VNone c, w') ∧
    trace w' = trace w ++ map (listing_request_at c cur) (seq 0 (S k)) ∧
    log w' = log w ++ recs ∧
    Forall (λ r, log_level r = DEBUG) recs.
Proof.
  intros Hsrv Hk.
  destruct (all_orders_fits c (trace w) page cur k w eq_refl Hsrv)
    as (recs & w' & Hrun & Ht & Hdbg & Hlog); [lia |].
  exists recs, w'.
  split; [exact Hrun |]. split; [exact Ht |].
  split; [| exact Hdbg].
  rewrite Hlog.
  replace ((0 <? Z.of_nat k) && (Z.of_nat k =? max_pages c)) with false;
    [rewrite app_nil_r; reflexivity |].
  symmetry. apply andb_false_iff.
  destruct Hk as [-> | Hk]; [left; reflexivity | right; apply Z.eqb_neq; lia].
Qed.

(** X13: when the listing ends exactly where the count reaches
    [max_pages] (one first page and [max_pages] further ones), nothing is
    cut off — every page is returned and no cursor is left — and yet the
    max-pages warning is logged. *)
Theorem all_orders_warns_on_exact_fit c page cur k w :
  serves_listing server c (trace w) k page cur →
  (0 < k)%nat → Z.of_nat k = max_pages c →
  ∃ w',
    all_orders server c w =
      (Ok (VList (concat (map page (seq 0 (S k))))),
       with_next_page VNone c, w') ∧
    trace w' = trace w ++ map (listing_request_at c cur) (seq 0 (S k)) ∧
    last (log w') = Some (max_pages_warning c).
Proof.
  intros Hsrv Hpos Hk.
  destruct (all_orders_fits c (trace w) page cur k w eq_refl Hsrv)
    as (recs & w' & Hrun & Ht & Hdbg & Hlog); [lia |].
  exists w'.
  split; [exact Hrun |]. split; [exact Ht |].
  rewrite Hlog.
  replace ((0 <? Z.of_nat k) && (Z.of_nat k =? max_pages c)) with true;
    [rewrite app_assoc; apply last_snoc |].
  symmetry. apply andb_true_iff.
  split; [apply Z.ltb_lt; lia | apply Z.eqb_eq; lia].
Qed.

End AllOrdersMore.

Lemma cursor_shop_serves (c : Squarespace) (h : list Request) :
  serves_listing cursor_shop c h 2 shop_page shop_cursor.
Proof.
  split.
  - intros [| [| i]] Hi; [| | lia];
      (eexists; split; [reflexivity |]);
      (split; [left; reflexivity |]); eexists _, _; repeat split; reflexivity.
  - eexists. split; [reflexivity |].
    split; [left; reflexivity |]. eexists _, _. repeat split; reflexivity.
Qed.

Lemma all_orders_complete_witness :
  ∃ recs w',
    all_orders cursor_shop held_client demo_world =
      (Ok (VList (shop_page 0 ++ shop_page 1 ++ shop_page 2 ++ [])),
       with_next_page VNone held_client, w') ∧
    trace w' =
      trace demo_world ++
        [orders_request held_client [];
         orders_request held_client [("cursor", VStr "c1")];
         orders_request held_client [("cursor", VStr "c2")]] ∧
    log w' = log demo_world ++ recs ∧
    Forall (λ r, log_level r = DEBUG) recs.
Proof.
  apply (all_orders_complete cursor_shop held_client shop_page shop_cursor 2
           demo_world (cursor_shop_serves held_client (trace demo_world))).
  right. reflexivity.
Defined.

Lemma all_orders_warns_on_exact_fit_witness :
  ∃ w',
    all_orders cursor_shop (with_max_pages 2 demo_client) demo_world =
      (Ok (VList (shop_page 0 ++ shop_page 1 ++ shop_page 2 ++ [])),
       with_next_page VNone (with_max_pages 2 demo_client), w') ∧
    trace w' =
      trace demo_world ++
        [orders_request demo_client [];
         orders_request demo_client [("cursor", VStr "c1")];
         orders_request demo_client [("cursor", VStr "c2")]] ∧
    last (log w') = Some (max_pages_warning (with_max_pages 2 demo_client)).
Proof.
  apply (all_orders_warns_on_exact_fit cursor_shop (with_max_pages 2 demo_client)
           shop_page shop_cursor 2 demo_world
           (cursor_shop_serves (with_max_pages 2 demo_client) (trace demo_world)));
    [lia | reflexivity].
Defined.

(** ** Bounds and frames of the whole client *)

Section Frames.

Variable server : list Request → Request → exn + Response.

Lemma listing_request_config v c q :
  listing_request (with_next_page v c) q → listing_request c q.
Proof. intros H. exact H. Qed.

Lemma orders_listing args c :
  args = [] ∨ (∃ cur, truthy cur = true ∧ args = [("cursor", cur)]) →
  listing_request c (orders_request c args).
Proof.
  intros H. repeat (split; [reflexivity |]).
  destruct H as [-> | (cur & Hc & ->)]; [left; reflexivity |].
  right. exists cur. split; [exact Hc | reflexivity].
Qed.

(** Entered with [count] pages counted, the loop sends at most
    [max 1 (max_pages - count)] requests, each a listing request. *)
Lemma all_orders_loop_bound fuel :
  ∀ count acc c w,
    ∃ new,
      trace (world_of (all_orders_loop server fuel count acc c w)) =
        trace w ++ new ∧
      (length new ≤ Z.to_nat (Z.max 1 (max_pages c - count)))%nat ∧
      Forall (listing_request c) new.
Proof.
  assert (Hnone : ∀ (o : outcome value) c w count,
            ∃ new, trace (world_of (o, c, w)) = trace w ++ new ∧
                   (length new ≤ Z.to_nat (Z.max 1 (max_pages c - count)))%nat ∧
                   Forall (listing_request c) new).
  { intros. exists []. split; [symmetry; apply app_nil_r |].
    split; [cbn [length]; lia | constructor]. }
  induction fuel as [| fuel IH]; intros count acc c w;
    destruct (truthy (_next_page c)) eqn:Hc;
    try (rewrite all_orders_loop_done by assumption; apply Hnone).
  - cbn [all_orders_loop]. mrun. rewrite Hc. apply Hnone.
  - rewrite all_orders_loop_step by assumption.
    destruct (getattr_extend acc) as [l | e |]; try apply Hnone.
    rewrite next_page_held by assumption.
    set (args := [("cursor", _next_page c)]).
    destruct (orders_inv server args c w) as (Ht & Hcfg & _).
    assert (Hreq : listing_request c (orders_request c args)).
    { apply orders_listing. right. exists (_next_page c). split; [exact Hc | reflexivity]. }
    assert (Hone : ∀ (o : outcome value) w1,
              trace w1 = trace w ++ [orders_request c args] →
              ∀ c1, ∃ new, trace (world_of (o, c1, w1)) = trace w ++ new ∧
                     (length new ≤ Z.to_nat (Z.max 1 (max_pages c - count)))%nat ∧
                     Forall (listing_request c) new).
    { intros o w1 Hw1 c1. exists [orders_request c args].
      split; [exact Hw1 |]. split; [cbn [length]; lia |].
      constructor; [exact Hreq | constructor]. }
    destruct (orders server args c w) as [[[page | e |] c1] w1];
      unfold world_of, client_of in Ht, Hcfg; cbn [fst snd] in Ht, Hcfg;
      try (apply Hone; exact Ht).
    assert (Hmp : max_pages c1 = max_pages c) by (rewrite Hcfg; reflexivity).
    destruct (extend l page) as [acc' | e |]; try (apply Hone; exact Ht).
    rewrite Z.geb_leb.
    destruct (max_pages c1 <=? count + 1) eqn:Hcap; [apply Hone; exact Ht |].
    apply Z.leb_gt in Hcap.
    destruct (IH (count + 1) acc' c1 w1) as (new & Hnew & Hlen & Hall).
    exists (orders_request c args :: new).
    split; [rewrite Hnew, Ht, <- app_assoc; reflexivity |].
    split; [cbn [length]; lia |].
    constructor; [exact Hreq |].
    rewrite Hcfg in Hall. exact Hall.
Qed.

(** X14: whatever the server does, [all_orders] comes back (with orders or
    an exception) after at least one and at most [1 + max 1 max_pages]
    requests, and every one of them is a [GET] of [commerce/orders] with
    the session's headers, no body, and either no parameter (the first) or
    a single truthy [cursor]. *)
Theorem all_orders_request_bound c w :
  result_of (all_orders server c w) ≠ OutOfFuel ∧
  ∃ new,
    trace (world_of (all_orders server c w)) = trace w ++ new ∧
    (1 ≤ length new ≤ 1 + Z.to_nat (Z.max 1 (max_pages c)))%nat ∧
    Forall (listing_request c) new.
Proof.
  split; [apply all_orders_total |].
  unfold all_orders. mrun.
  destruct (orders_inv server [] c w) as (Ht & Hcfg & _).
  assert (Hreq : listing_request c (orders_request c []))
    by (apply orders_listing; left; reflexivity).
  destruct (orders server [] c w) as [[[page | e |] c1] w1];
    unfold world_of, client_of in *; cbn [fst snd] in *;
    try (exists [orders_request c []]; split; [exact Ht |];
         split; [cbn [length]; lia | constructor; [exact Hreq | constructor]]).
  assert (Hmp : max_pages c1 = max_pages c) by (rewrite Hcfg; reflexivity).
  destruct (all_orders_loop_bound (S (Z.to_nat (max_pages c1))) 0 page c1 w1)
    as (new & Hnew & Hlen & Hall).
  exists (orders_request c [] :: new).
  unfold world_of in Hnew.
  split; [rewrite Hnew, Ht, <- app_assoc; reflexivity |].
  split; [cbn [length]; rewrite Hmp, Z.sub_0_r in Hlen; lia |].
  constructor; [exact Hreq |]. rewrite Hcfg in Hall. exact Hall.
Qed.

Lemma same_config_cursor (r : Squarespace) c :
  r = with_next_page (_next_page r) c → same_config c r.
Proof. intros ->. repeat split. Qed.

Lemma same_config_refl c : same_config c c.
Proof. repeat split. Qed.

(** X15: no method writes the key, the base URL, the version, the tracking
    template, the session headers, the user agent or [max_pages]: after
    [process_request], [get], [post], [orders], [next_page], [all_orders],
    [order] and [fulfill], with any arguments and any server, these fields
    are what they were. *)
Theorem config_never_written c w :
  (∀ request, same_config c (client_of (process_request request c w))) ∧
  (∀ path args, same_config c (client_of (get server path args c w))) ∧
  (∀ path object, same_config c (client_of (post server path object c w))) ∧
  (∀ args, same_config c (client_of (orders server args c w))) ∧
  same_config c (client_of (next_page server c w)) ∧
  same_config c (client_of (all_orders server c w)) ∧
  (∀ order_id order_number,
     same_config c (client_of (order server order_id order_number c w))) ∧
  (∀ order_id tracking_number carrier_name service_name tracking,
     same_config c (client_of (fulfill server order_id tracking_number
                                 carrier_name service_name tracking c w))).
Proof.
  split; [| split; [| split; [| split; [| split; [| split; [| split]]]]]].
  - intros. rewrite process_request_self. apply same_config_refl.
  - intros. rewrite get_self. apply same_config_refl.
  - intros. rewrite post_self. apply same_config_refl.
  - intros. apply same_config_cursor, orders_only_pages.
  - apply same_config_cursor, next_page_inv.
  - apply same_config_cursor, all_orders_only_pages.
  - intros order_id order_number. destruct (truthy order_id) eqn:H.
    + rewrite order_by_id_self by assumption. apply same_config_refl.
    + rewrite order_falsy_id by assumption.
      apply same_config_cursor, order_no_id_only_pages.
  - intros. rewrite fulfill_unfold, post_self. apply same_config_refl.
Qed.

End Frames.

(** ** More on single orders and fulfilment *)

Section OrdersMore.

Variable server : list Request → Request → exn + Response.

(** X16: a non-empty [order_id] wins over any [order_number]: the call
    sends exactly one request, a [GET] of [commerce/orders/<id>] without
    parameters, nothing is scanned, and a 200 or 201 answer comes back as
    its decoded body. *)
Theorem order_by_id_request id order_number c w :
  id ≠ "" →
  order server (VStr id) order_number c w =
    get server ("commerce/orders/" +:+ id) None c w ∧
  trace (world_of (order server (VStr id) order_number c w)) =
    trace w ++
      [{| req_method := GET;
          req_url := endpoint c ("commerce/orders/" +:+ id);
          req_params := [];
          req_json := None;
          req_headers := http_headers c |}] ∧
  (∀ resp body,
     server (trace w) (get_request c ("commerce/orders/" +:+ id) None) = inr resp →
     status_code resp = 200 ∨ status_code resp = 201 →
     json resp = Some body →
     result_of (order server (VStr id) order_number c w) = Ok body).
Proof.
  intros Hid.
  assert (Hrun : order server (VStr id) order_number c w =
                 get server ("commerce/orders/" +:+ id) None c w).
  { unfold order. cbn [truthy].
    destruct (String.eqb_spec id ""); [congruence | reflexivity]. }
  split; [exact Hrun |]. rewrite Hrun. split; [apply get_trace |].
  intros resp body Hsrv Hst Hj. rewrite get_unfold. cbv zeta. rewrite Hsrv.
  rewrite (process_request_json resp body _ _ Hst Hj). reflexivity.
Qed.

(** X17: a truthy [order_id] that is not a string (a number, a list, ...)
    cannot be joined to the path: [order] raises [TypeError] and sends
    nothing, whatever [order_number] is. *)
Theorem order_non_string_id order_id order_number c w :
  truthy order_id = true →
  (∀ s, order_id ≠ VStr s) →
  order server order_id order_number c w = (Raise (Exn TypeError []), c, w).
Proof.
  intros Ht Hs. unfold order. rewrite Ht.
  destruct order_id; try reflexivity. exfalso. eapply Hs. reflexivity.
Qed.

Lemma scan_prefix n pre x rest :
  Forall (other_number n) pre →
  scan n (pre ++ x :: rest) =
    match subscript x "orderNumber" with
    | Ok v => if py_eq v n then Ok x else scan n rest
    | Raise e => Raise e
    | OutOfFuel => OutOfFuel
    end.
Proof.
  induction 1 as [| o pre (v & Hv & Hne) _ IH]; [reflexivity |].
  cbn [app scan]. rewrite Hv, Hne. exact IH.
Qed.

(** X18: the scan by number stops at the first match: the orders after it
    are not looked at, so whatever they are — repeats of the number,
    entries without an [orderNumber] — the first matching order is the
    result. *)
Theorem order_returns_first_match order_number c w pre o rest :
  truthy order_number = true →
  result_of (all_orders server c w) = Ok (VList (pre ++ o :: rest)) →
  Forall (other_number order_number) pre →
  number_is order_number o = true →
  result_of (order server VNone order_number c w) = Ok o.
Proof.
  intros Ht Hall Hpre Ho. rewrite order_by_number_run by assumption.
  destruct (all_orders server c w) as [[r c'] w'].
  unfold result_of in *. cbn [fst snd] in *. subst r. cbn [iterate].
  rewrite (scan_prefix _ _ _ _ Hpre). unfold number_is in Ho.
  destruct (subscript o "orderNumber"); try discriminate. rewrite Ho.
  reflexivity.
Qed.

(** X19: an order that cannot be asked for its [orderNumber] — a mapping
    without the key, or no mapping at all — ends the scan with the
    exception of that lookup when it comes before any match, even if a
    later order would match. *)
Theorem order_stops_at_malformed_order order_number c w pre o rest e :
  truthy order_number = true →
  result_of (all_orders server c w) = Ok (VList (pre ++ o :: rest)) →
  Forall (other_number order_number) pre →
  subscript o "orderNumber" = Raise e →
  result_of (order server VNone order_number c w) = Raise e.
Proof.
  intros Ht Hall Hpre Ho. rewrite order_by_number_run by assumption.
  destruct (all_orders server c w) as [[r c'] w'].
  unfold result_of in *. cbn [fst snd] in *. subst r. cbn [iterate].
  rewrite (scan_prefix _ _ _ _ Hpre), Ho. reflexivity.
Qed.

(** X20: whatever the clock shows, [fulfill] posts a mapping whose
    [shouldSendNotification] is [True] and whose single shipment carries
    the carrier and service names as given; the client is left as it was,
    and the answer is the classifier's: a 204 makes [fulfill] return
    [True]. *)
Theorem fulfill_body_and_result order_id tracking_number carrier_name
    service_name tracking c w :
  ∃ body shipment,
    trace (world_of (fulfill server order_id tracking_number carrier_name
                       service_name tracking c w)) =
      trace w ++
        [post_request c ("commerce/orders/" +:+ order_id +:+ "/fulfillments")
           body] ∧
    subscript body "shouldSendNotification" = Ok (VBool true) ∧
    subscript body "shipments" = Ok (VList [shipment]) ∧
    subscript shipment "carrierName" = Ok carrier_name ∧
    subscript shipment "service" = Ok service_name ∧
    client_of (fulfill server order_id tracking_number carrier_name
                 service_name tracking c w) = c ∧
    (∀ resp,
       server (trace w)
         (post_request c ("commerce/orders/" +:+ order_id +:+ "/fulfillments")
            body) = inr resp →
       status_code resp = 204 →
       result_of (fulfill server order_id tracking_number carrier_name
                    service_name tracking c w) = Ok (VBool true)).
Proof.
  rewrite fulfill_unfold. eexists _, _.
  split; [apply post_trace |].
  split; [reflexivity |]. split; [reflexivity |]. split; [reflexivity |].
  split; [reflexivity |]. split; [apply post_self |].
  intros resp Hsrv Hst. rewrite post_unfold. cbv zeta. rewrite Hsrv.
  unfold process_request. rewrite Hst. reflexivity.
Qed.

End OrdersMore.

Lemma order_by_id_request_witness :
  order small_shop (VStr "5f3a") (VStr "1002") demo_client demo_world =
    get small_shop ("commerce/orders/" +:+ "5f3a") None demo_client demo_world ∧
  trace (world_of (order small_shop (VStr "5f3a") (VStr "1002")
                     demo_client demo_world)) =
    trace demo_world ++
      [{| req_method := GET;
          req_url := endpoint demo_client ("commerce/orders/" +:+ "5f3a");
          req_params := [];
          req_json := None;
          req_headers := http_headers demo_client |}] ∧
  (∀ resp body,
     small_shop (trace demo_world)
       (get_request demo_client ("commerce/orders/" +:+ "5f3a") None) = inr resp →
     status_code resp = 200 ∨ status_code resp = 201 →
     json resp = Some body →
     result_of (order small_shop (VStr "5f3a") (VStr "1002")
                  demo_client demo_world) = Ok body).
Proof.
  apply (order_by_id_request small_shop "5f3a" (VStr "1002")
           demo_client demo_world).
  discriminate.
Defined.

Lemma order_non_string_id_witness :
  order small_shop (VInt 42) (VStr "1002") demo_client demo_world =
    (Raise (Exn TypeError []), demo_client, demo_world).
Proof.
  apply (order_non_string_id small_shop (VInt 42) (VStr "1002")
           demo_client demo_world); [reflexivity | discriminate].
Defined.

Lemma order_returns_first_match_witness :
  result_of (order small_shop VNone (VStr "1002") demo_client demo_world) =
    Ok (demo_order "1002").
Proof.
  apply (order_returns_first_match small_shop (VStr "1002") demo_client
           demo_world [demo_order "1001"] (demo_order "1002") []);
    [reflexivity | reflexivity | | reflexivity].
  repeat constructor. eexists. split; reflexivity.
Defined.

Lemma order_stops_at_malformed_order_witness :
  let server := λ (h : list Request) (r : Request),
    inr {| status_code := 200; url := req_url r; text := "";
           json := Some (VDict [("result",
                                 VList [demo_order "1001";
                                        VDict [("id", VStr "draft")];
                                        demo_order "1002"]);
                                ("pagination", VDict [])]) |}
    : exn + Response in
  result_of (order server VNone (VStr "1002") demo_client demo_world) =
    Raise (Exn KeyError [AStr "orderNumber"]).
Proof.
  intros server.
  apply (order_stops_at_malformed_order server (VStr "1002") demo_client
           demo_world [demo_order "1001"] (VDict [("id", VStr "draft")])
           [demo_order "1002"]);
    [reflexivity | reflexivity | | reflexivity].
  repeat constructor. eexists. split; reflexivity.
Defined.

Lemma fulfill_body_and_result_witness :
  result_of (fulfill (status_server 204) "5f3a" "9400" (VStr "USPS")
               (VStr "First Class Package") None demo_client demo_world) =
    Ok (VBool true).
Proof.
  destruct (fulfill_body_and_result (status_server 204) "5f3a" "9400"
              (VStr "USPS") (VStr "First Class Package") None
              demo_client demo_world)
    as (body & shipment & _ & _ & _ & _ & _ & _ & H).
  apply (H {| status_code := 204;
              url := req_url (post_request demo_client
                                ("commerce/orders/" +:+ "5f3a" +:+ "/fulfillments")
                                body);
              text := "oops"; json := None |});
    reflexivity.
Defined.

(** ** No partial results *)

Section NoPartialResults.

Variable server : list Request → Request → exn + Response.

Lemma orders_ok_inv args c w v c1 w1 :
  orders server args c w = (Ok v, c1, w1) →
  (∃ resp, server (trace w) (orders_request c args) = inr resp ∧
           (status_code resp = 200 ∨ status_code resp = 201)) ∧
  trace w1 = trace w ++ [orders_request c args].
Proof.
  intros H. split.
  - revert H. unfold orders. mrun. rewrite get_unfold. cbv zeta.
    fold (orders_request c args).
    destruct (server (trace w) (orders_request c args)) as [e | resp];
      [discriminate |].
    set (w0 := sent _ _).
    destruct (process_request resp c w0) as [[[v0 | e |] c'] w'] eqn:E;
      [| discriminate | discriminate].
    apply process_request_ok_inv in E as [[[Hs _] | [_ ->]] _].
    + intros _. exists resp. split; [reflexivity | exact Hs].
    + cbn [subscript]. discriminate.
  - destruct (orders_inv server args c w) as (Ht & _).
    rewrite H in Ht. exact Ht.
Qed.

Lemma all_orders_loop_ok fuel :
  ∀ count acc c w v c' w',
    all_orders_loop server fuel count acc c w = (Ok v, c', w') →
    ∃ new, trace w' = trace w ++ new ∧ answered_ok server (trace w) new.
Proof.
  induction fuel as [| fuel IH]; intros count acc c w v c' w' H;
    destruct (truthy (_next_page c)) eqn:Hc;
    try (rewrite all_orders_loop_done in H by assumption;
         injection H as _ _ <-; exists []; split;
         [symmetry; apply app_nil_r | exact I]).
  - revert H. cbn [all_orders_loop]. mrun. rewrite Hc. discriminate.
  - rewrite all_orders_loop_step in H by assumption.
    destruct (getattr_extend acc) as [l | e |]; try discriminate.
    rewrite next_page_held in H by assumption.
    set (args := [("cursor", _next_page c)]) in *.
    destruct (orders server args c w) as [[[page | e |] c1] w1] eqn:Eo;
      try discriminate.
    apply orders_ok_inv in Eo as [Hans Ht].
    destruct (extend l page) as [acc' | e |]; try discriminate.
    destruct (count + 1 >=? max_pages c1).
    + injection H as _ _ <-. exists [orders_request c args].
      split; [exact Ht |]. split; [exact Hans | exact I].
    + apply IH in H as (new & Hnew & Hall).
      exists (orders_request c args :: new).
      split; [rewrite Hnew, Ht, <- app_assoc; reflexivity |].
      split; [exact Hans |]. rewrite <- Ht. exact Hall.
Qed.

(** X21: [all_orders] hands back orders only if every request it sent was
    answered with status 200 or 201: one failed page fetch — transport
    down, an error status, a 204 — and the call raises; the pages fetched
    before it are not returned. *)
Theorem all_orders_ok_all_answered c w v :
  result_of (all_orders server c w) = Ok v →
  ∃ new,
    trace (world_of (all_orders server c w)) = trace w ++ new ∧
    answered_ok server (trace w) new.
Proof.
  unfold all_orders. mrun.
  destruct (orders server [] c w) as [[[page | e |] c1] w1] eqn:Eo;
    try discriminate.
  apply orders_ok_inv in Eo as [Hans Ht].
  destruct (all_orders_loop server (S (Z.to_nat (max_pages c1))) 0 page c1 w1)
    as [[r c'] w'] eqn:El.
  unfold result_of, world_of. cbn [fst snd]. intros ->.
  apply all_orders_loop_ok in El as (new & Hnew & Hall).
  exists (orders_request c [] :: new).
  split; [rewrite Hnew, Ht, <- app_assoc; reflexivity |].
  split; [exact Hans |]. rewrite <- Ht. exact Hall.
Qed.

End NoPartialResults.

Lemma all_orders_ok_all_answered_witness :
  ∃ new,
    trace (world_of (all_orders small_shop demo_client demo_world)) =
      trace demo_world ++ new ∧
    answered_ok small_shop (trace demo_world) new.
Proof.
  apply (all_orders_ok_all_answered small_shop demo_client demo_world
           (VList [demo_order "1001"; demo_order "1002"])).
  reflexivity.
Defined.
